(** * nucypher/config/utils.py: configuration bootstrap and validation

    A shallow embedding of [nucypher.config.utils] and the properties of its
    functions.  Python values are modelled as follows.

    - [str] is [string]; [len] is [String.length].
    - An exception is a constructor of [exn]; a call either returns a value
      or raises ([outcome]).
    - A [configparser.ConfigParser] with the settings [ConfigParser()] gives
      it is its two dictionaries, the options of the [DEFAULT] section and
      the options of every other section; reading an option interpolates its
      value as [BasicInterpolation] does.
    - The file system is a finite map from the canonical names of files to
      nodes; code that touches it is a function from a file system to an
      outcome and the file system it leaves behind ([io]).  What the process
      brings along, its umask and the way path names resolve to canonical
      names, is a [process]. *)

From Stdlib Require Import Ascii String.
From stdpp Require Import gmap strings list fin_maps.

Local Open Scope string_scope.

(** ** Exceptions and outcomes *)

(** [NucypherConfigurationError] is the class the module declares (a
    [RuntimeError]); the others are the exceptions of the built-in functions
    and of [configparser] that the calls the module makes can raise.  The
    three interpolation errors carry the option and section they arose in;
    the syntax error carries the text at which the scan stopped, the other
    two the raw value of the option. *)
Inductive exn : Type :=
  | NucypherConfigurationError (msg : string)
  | KeyError (key : string)
  | NoOptionError (key section : string)
  | InterpolationSyntaxError (key section rest : string)
  | InterpolationMissingOptionError (key section rawval reference : string)
  | InterpolationDepthError (key section rawval : string)
  | FileExistsError (path : string)
  | FileNotFoundError (path : string)
  | NotADirectoryError (path : string)
  | IsADirectoryError (path : string)
  | UnicodeDecodeError
  | ParsingError (msg : string)
  | Exception (msg : string).

Inductive outcome (A : Type) : Type :=
  | Return (a : A)
  | Raise (e : exn).

Arguments Return {A} a.
Arguments Raise {A} e.

Definition obind {A B : Type} (m : outcome A) (k : A -> outcome B) : outcome B :=
  match m with
  | Return a => k a
  | Raise e => Raise e
  end.

Declare Scope outcome_scope.
Delimit Scope outcome_scope with outcome.
Notation "'let?' x := m 'in' k" := (obind m (fun x => k))
  (at level 10, x name, m at level 100, k at level 200) : outcome_scope.

(** ** String helpers of the Python runtime *)

(** [repr] of a [str] that holds no quote, backslash or control character
    (the only strings the module applies it to are the four mode names). *)
Definition py_repr_str (s : string) : string := "'" +:+ s +:+ "'".

Fixpoint py_join (sep : string) (l : list string) : string :=
  match l with
  | [] => ""
  | [x] => x
  | x :: rest => x +:+ sep +:+ py_join sep rest
  end.

(** [str] of a tuple of strings: a one-element tuple prints its comma. *)
Definition py_str_tuple (t : list string) : string :=
  match t with
  | [x] => "(" +:+ py_repr_str x +:+ ",)"
  | _ => "(" +:+ py_join ", " (map py_repr_str t) +:+ ")"
  end.

(** [str(x)] for an argument that is a [str] or [None]. *)
Definition py_str_opt (x : option string) : string :=
  match x with
  | Some s => s
  | None => "None"
  end.

(** Truth value of an optional string: [None] and [''] are false. *)
Definition truthy (x : option string) : bool :=
  match x with
  | Some (String _ _) => true
  | _ => false
  end.

(** [c in chars] for a character. *)
Fixpoint char_in (c : ascii) (chars : string) : bool :=
  match chars with
  | EmptyString => false
  | String d rest => bool_decide (c = d) || char_in c rest
  end.

(** [s.lower()] on the letters [A] to [Z]. *)
Definition ascii_lower (c : ascii) : ascii :=
  let n := nat_of_ascii c in
  if (65 <=? n)%nat && (n <=? 90)%nat then ascii_of_nat (n + 32) else c.

Fixpoint str_lower (s : string) : string :=
  match s with
  | EmptyString => ""
  | String c rest => String (ascii_lower c) (str_lower rest)
  end.

(** ** Validator *)

(** *** validate_passphrase *)

(** The loop over the tuple of (rule, failure message) pairs: the first
    rule that is false raises its message, and [True] is returned after the
    last. *)
Fixpoint check_rules (rules : list (bool * string)) : outcome bool :=
  match rules with
  | [] => Return true
  | (rule, failure_message) :: rest =>
      if negb rule then Raise (NucypherConfigurationError failure_message)
      else check_rules rest
  end.

Definition validate_passphrase (passphrase : string) : outcome bool :=
  let rules :=
    [ ((16 <=? String.length passphrase)%nat,
       "Passphrase is too short, must be >= 16 chars.") ] in
  check_rules rules.

(** *** configparser.ConfigParser *)

Record ConfigParser : Type := {
  _defaults : gmap string string;
  _sections : gmap string (gmap string string)
}.

Definition default_section : string := "DEFAULT".

Definition MAX_INTERPOLATION_DEPTH : nat := 10.

(** [config.sections()]: the section names, [DEFAULT] not among them. *)
Definition sections (config : ConfigParser) : list string :=
  elements (dom (_sections config)).

Definition has_section (config : ConfigParser) (section : string) : bool :=
  bool_decide (section ∈ sections config).

(** [config.has_option(section, key)]; the option name is already in the
    lower case [optionxform] gives it. *)
Definition has_option (config : ConfigParser) (section key : string) : bool :=
  if decide (section = "" \/ section = default_section)
  then bool_decide (is_Some (_defaults config !! key))
  else match _sections config !! section with
       | None => false
       | Some opts =>
           bool_decide (is_Some (opts !! key))
           || bool_decide (is_Some (_defaults config !! key))
       end.

(** The mapping [get] reads from, a [ChainMap] of the section's own options
    over the default ones: the value as it is stored. *)
Definition raw_get (config : ConfigParser) (section key : string) : option string :=
  match _sections config !! section ≫= (.!! key) with
  | Some v => Some v
  | None => _defaults config !! key
  end.

(** The loop of [BasicInterpolation._interpolate_some] over [rest].  Text
    up to the next [%] is kept, [%%] gives [%], and [%(name)s], the match of
    [%\(([^)]+)\)s], gives the value of the option [name]: as it is when it
    holds no [%], and interpolated one level further down, by [nested],
    when it does.  Any other use of [%] is a syntax error.  [reference] is
    the match of the pattern after [%(]: [at] is the text from the [%] on
    and [name] what was read of the name. *)
Fixpoint scan (nested : string -> outcome string)
    (lookup : string -> option string) (key section rawval : string)
    (rest : string) : outcome string :=
  match rest with
  | EmptyString => Return ""
  | String c r =>
      if negb (bool_decide (c = "%"%char)) then
        (let? text := scan nested lookup key section rawval r in
         Return (String c text))%outcome
      else
        match r with
        | String d r' =>
            if bool_decide (d = "%"%char) then
              (let? text := scan nested lookup key section rawval r' in
               Return (String "%" text))%outcome
            else if bool_decide (d = "("%char) then
              reference nested lookup key section rawval rest "" r'
            else Raise (InterpolationSyntaxError key section rest)
        | EmptyString => Raise (InterpolationSyntaxError key section rest)
        end
  end
with reference (nested : string -> outcome string)
    (lookup : string -> option string) (key section rawval : string)
    (at_percent name : string) (r : string) : outcome string :=
  match r with
  | EmptyString => Raise (InterpolationSyntaxError key section at_percent)
  | String c r' =>
      if bool_decide (c = ")"%char) then
        match name, r' with
        | String _ _, String s after =>
            if bool_decide (s = "s"%char) then
              let var := str_lower name in
              match lookup var with
              | None =>
                  Raise (InterpolationMissingOptionError key section rawval var)
              | Some v =>
                  (let? head := (if char_in "%" v then nested v else Return v) in
                   let? text := scan nested lookup key section rawval after in
                   Return (head +:+ text))%outcome
              end
            else Raise (InterpolationSyntaxError key section at_percent)
        | _, _ => Raise (InterpolationSyntaxError key section at_percent)
        end
      else
        reference nested lookup key section rawval at_percent
          (name +:+ String c "") r'
  end.

(** [_interpolate_some] with [levels] levels of nesting left: the call at
    depth [MAX_INTERPOLATION_DEPTH + 1] raises. *)
Fixpoint interpolate_some (levels : nat) (lookup : string -> option string)
    (key section rawval : string) (rest : string) : outcome string :=
  match levels with
  | O => Raise (InterpolationDepthError key section rawval)
  | S levels' =>
      scan (interpolate_some levels' lookup key section rawval)
        lookup key section rawval rest
  end.

(** [BasicInterpolation.before_get] on the raw [value] of an option. *)
Definition before_get (config : ConfigParser) (section key value : string)
    : outcome string :=
  interpolate_some MAX_INTERPOLATION_DEPTH (raw_get config section)
    key section value value.

(** [config.get(section, key)] for a section that exists. *)
Definition get (config : ConfigParser) (section key : string) : outcome string :=
  match raw_get config section key with
  | None => Raise (NoOptionError key section)
  | Some value => before_get config section key value
  end.

(** [config[key]]: the section proxy, which is the section's name. *)
Definition parser_getitem (config : ConfigParser) (key : string) : outcome string :=
  if negb (bool_decide (key = default_section)) && negb (has_section config key)
  then Raise (KeyError key)
  else Return key.

(** [proxy[key]] for the proxy of section [name]. *)
Definition proxy_getitem (config : ConfigParser) (name key : string) : outcome string :=
  if negb (has_option config name key) then Raise (KeyError key)
  else get config name key.

(** *** validate_nucypher_ini_config *)

Definition modes : list string :=
  ["federated"; "testing"; "decentralized"; "centralized"].

Definition required_sections : list string := ["nucypher"; "blockchain"].

(** The loop over [required_sections]; [missing_sections] is the list built
    so far. *)
Fixpoint check_required_sections (config : ConfigParser) (raise_on_failure : bool)
    (required : list string) (missing_sections : list string)
    : outcome (list string) :=
  match required with
  | [] => Return missing_sections
  | section :: rest =>
      if negb (bool_decide (section ∈ sections config)) then
        let missing_sections := (missing_sections ++ [section])%list in
        if raise_on_failure then
          Raise (NucypherConfigurationError
                   ("Invalid config file: missing section '" +:+ section +:+ "'"))
        else check_required_sections config raise_on_failure rest missing_sections
      else check_required_sections config raise_on_failure rest missing_sections
  end.

Section Validate.

(** [configparser.ConfigParser().read(filepath)] on a fresh parser: the
    parsed document, or the parser's error. *)
Variable read_ini : string -> outcome ConfigParser.

(** The document the checks run on: the one passed in, or the one read
    from [filepath] when [config] is [None]. *)
Definition load_config (config : option ConfigParser) (filepath : string)
    : outcome ConfigParser :=
  match config with
  | None => read_ini filepath
  | Some c => Return c
  end.

Definition validate_nucypher_ini_config (config : option ConfigParser)
    (filepath : string) (raise_on_failure : bool)
    : outcome (bool * list string) :=
  (let? config := load_config config filepath in
   if bool_decide (sections config = []) then
     Raise (NucypherConfigurationError "Empty configuration file")
   else
     let missing_sections : list string := [] in
     match (let? proxy := parser_getitem config "nucypher" in
            proxy_getitem config proxy "mode") with
     | Raise (KeyError _) =>
         Raise (NucypherConfigurationError "No operating mode configured")
     | Raise e => Raise e
     | Return operating_mode =>
         let? missing_sections :=
           (if negb (bool_decide (operating_mode ∈ modes)) then
              let missing_sections := (missing_sections ++ ["mode"])%list in
              if raise_on_failure then
                Raise (NucypherConfigurationError
                         ("Invalid nucypher operating mode '" +:+ operating_mode
                          +:+ "'. Specify " +:+ py_str_tuple modes))
              else Return missing_sections
            else Return missing_sections) in
         let? missing_sections :=
           check_required_sections config raise_on_failure
             required_sections missing_sections in
         if (0 <? length missing_sections)%nat
         then Return (false, missing_sections)
         else Return (true, [])
     end)%outcome.

End Validate.

(** ** The file system *)

(** A node is a directory with its permission bits, a regular file with
    its text, or a regular file whose bytes are not all text in the
    encoding of the process: [readable] is the text, line ends translated,
    that can be read from such a file before the decoder raises.  Nodes are
    kept under the canonical names of their files.  There are no dangling
    symbolic links and no hard links, every name is free of NUL, and
    nothing fails for lack of permission or space. *)
Inductive node : Type :=
  | Dir (mode : N)
  | File (content : string)
  | Undecodable (readable : string).

Abbreviation filesystem := (gmap string node).

(** What the running process brings along: its file mode creation mask,
    and [resolve], which gives the canonical name of the file a path name
    denotes (absolute, symbolic links followed, no [.], [..], doubled or
    trailing slash).  Path names that resolve to one name are one file. *)
Class process : Type := {
  umask : N;
  resolve : string -> string
}.

(** The permission bits written [0oabc] in the source. *)
Definition octal (a b c : N) : N := (a * 64 + b * 8 + c)%N.

Definition io (A : Type) : Type := filesystem -> outcome A * filesystem.

Definition ret {A : Type} (a : A) : io A := fun fs => (Return a, fs).

Definition raise {A : Type} (e : exn) : io A := fun fs => (Raise e, fs).

Definition iobind {A B : Type} (m : io A) (k : A -> io B) : io B :=
  fun fs =>
    match m fs with
    | (Return a, fs') => k a fs'
    | (Raise e, fs') => (Raise e, fs')
    end.

Declare Scope io_scope.
Delimit Scope io_scope with io.
Bind Scope io_scope with io.
Notation "'let!' x := m 'in' k" := (iobind m (fun x => k))
  (at level 10, x name, m at level 100, k at level 200) : io_scope.
Notation "'do!' m 'in' k" := (iobind m (fun _ => k))
  (at level 10, m at level 100, k at level 200) : io_scope.

(** *** Characters and lines *)

Definition LF : ascii := "010"%char.
Definition CR : ascii := "013"%char.
Definition sep : ascii := "/"%char.

Fixpoint str_take (n : nat) (s : string) : string :=
  match n, s with
  | S n', String c rest => String c (str_take n' rest)
  | _, _ => ""
  end.

Fixpoint str_drop (n : nat) (s : string) : string :=
  match n, s with
  | S n', String _ rest => str_drop n' rest
  | _, _ => s
  end.

(** What the text layer of [open] does to the characters it reads (the
    default [newline=None]): each of [\r\n] and [\r] becomes [\n]. *)
Fixpoint universal_newlines (s : string) : string :=
  match s with
  | EmptyString => ""
  | String c rest =>
      if decide (c = CR) then
        String LF
          match rest with
          | String c' rest' =>
              if decide (c' = LF) then universal_newlines rest'
              else universal_newlines rest
          | EmptyString => ""
          end
      else String c (universal_newlines rest)
  end.

(** The lines a text file yields when iterated: each ends with its [\n],
    except possibly the last. *)
Fixpoint split_lines (s : string) : list string :=
  match s with
  | EmptyString => []
  | String c rest =>
      if decide (c = LF) then String c "" :: split_lines rest
      else match split_lines rest with
           | [] => [String c ""]
           | l :: ls => String c l :: ls
           end
  end.

Fixpoint ends_with_LF (l : string) : bool :=
  match l with
  | EmptyString => false
  | String c rest =>
      match rest with
      | EmptyString => bool_decide (c = LF)
      | String _ _ => ends_with_LF rest
      end
  end.

(** The lines of [split_lines] that are whole: a last line without [\n] is
    only yielded once the end of the file was seen. *)
Definition complete_lines (lines : list string) : list string :=
  List.filter ends_with_LF lines.

(** [s.lstrip(chars)]: drop leading characters as long as they are among
    [chars]. *)
Fixpoint lstrip (chars : string) (s : string) : string :=
  match s with
  | EmptyString => ""
  | String c rest => if char_in c chars then lstrip chars rest else s
  end.

(** [itertools.islice(it, start, None)]. *)
Definition islice {A : Type} (it : list A) (start : nat) : list A := drop start it.

(** Iterating a [str] yields its characters as one-character strings. *)
Fixpoint iter_str (s : string) : list string :=
  match s with
  | EmptyString => []
  | String c rest => String c "" :: iter_str rest
  end.

(** *** os.path *)

Fixpoint has_sep (p : string) : bool :=
  match p with
  | EmptyString => false
  | String c rest => bool_decide (c = sep) || has_sep rest
  end.

(** [p[:p.rfind('/') + 1]] *)
Fixpoint head_of (p : string) : string :=
  match p with
  | EmptyString => ""
  | String c rest =>
      if has_sep rest then String c (head_of rest)
      else if decide (c = sep) then String c "" else ""
  end.

Fixpoint all_sep (p : string) : bool :=
  match p with
  | EmptyString => true
  | String c rest => bool_decide (c = sep) && all_sep rest
  end.

(** [p.rstrip('/')] *)
Fixpoint rstrip_sep (p : string) : string :=
  match p with
  | EmptyString => ""
  | String c rest => if all_sep p then "" else String c (rstrip_sep rest)
  end.

(** [posixpath.dirname] *)
Definition dirname (p : string) : string :=
  let head := head_of p in
  if negb (bool_decide (head = "")) && negb (all_sep head)
  then rstrip_sep head
  else head.

(** An open text file: the canonical name of the file it was opened on and
    the position of the next read or write.  The text itself stays in the
    file system, so two handles on one file see each other's effects. *)
Record handle : Type := {
  h_path : string;
  h_pos : nat
}.

(** The text of the file a handle is open on (empty once it is gone). *)
Definition content_of (fs : filesystem) (name : string) : string :=
  match fs !! name with
  | Some (File content) => content
  | _ => ""
  end.

Section FileSystem.

Context `{P : process}.

(** What the system finds at a path name; the empty name denotes nothing. *)
Definition stat (fs : filesystem) (path : string) : option node :=
  if bool_decide (path = "") then None else fs !! resolve path.

Definition is_dir (fs : filesystem) (path : string) : bool :=
  match stat fs path with
  | Some (Dir _) => true
  | _ => false
  end.

Definition os_path_isdir (path : string) : io bool :=
  fun fs => (Return (is_dir fs path), fs).

Definition os_path_exists (path : string) : io bool :=
  fun fs => (Return (bool_decide (is_Some (stat fs path))), fs).

(** The directory a new entry [path] is made in must be there: nothing is
    returned when it is, and the error of the system call otherwise.  A
    canonical name without a directory part lies in the current directory,
    which exists. *)
Definition check_parent (path : string) : io unit :=
  fun fs =>
    let parent := dirname (resolve path) in
    if bool_decide (parent = "") then (Return tt, fs)
    else match fs !! parent with
         | Some (Dir _) => (Return tt, fs)
         | Some _ => (Raise (NotADirectoryError path), fs)
         | None => (Raise (FileNotFoundError path), fs)
         end.

(** [os.mkdir(path, mode)]: the bits of the umask are cleared in the mode
    of the new directory. *)
Definition os_mkdir (path : string) (mode : N) : io unit :=
  if bool_decide (path = "") then raise (FileNotFoundError path)
  else
    (let! present := os_path_exists path in
     if (present : bool) then raise (FileExistsError path)
     else
       do! check_parent path in
       fun fs => (Return tt, <[resolve path := Dir (N.ldiff mode umask)]> fs))%io.

(** *** File objects *)

(** [open(path, 'r')] *)
Definition open_r (path : string) : io handle :=
  fun fs =>
    match stat fs path with
    | None => (Raise (FileNotFoundError path), fs)
    | Some (Dir _) => (Raise (IsADirectoryError path), fs)
    | Some _ => (Return {| h_path := resolve path; h_pos := 0 |}, fs)
    end.

(** [open(path, 'w+')]: the file is created, or emptied when it exists. *)
Definition open_w_plus (path : string) : io handle :=
  fun fs =>
    if bool_decide (path = "") then (Raise (FileNotFoundError path), fs)
    else
      match fs !! resolve path with
      | Some (Dir _) => (Raise (IsADirectoryError path), fs)
      | Some _ =>
          (Return {| h_path := resolve path; h_pos := 0 |},
           <[resolve path := File ""]> fs)
      | None =>
          match check_parent path fs with
          | (Return _, _) =>
              (Return {| h_path := resolve path; h_pos := 0 |},
               <[resolve path := File ""]> fs)
          | (Raise e, _) => (Raise e, fs)
          end
      end.

End FileSystem.

(** [f.read()]: everything from the position to the end; the position
    moves to the end.  The decoder raises on a file that is not all text. *)
Definition file_read (f : handle) : io (string * handle) :=
  fun fs =>
    match fs !! h_path f with
    | Some (Undecodable _) => (Raise UnicodeDecodeError, fs)
    | _ =>
        let content := content_of fs (h_path f) in
        (Return (universal_newlines (str_drop (h_pos f) content),
                 {| h_path := h_path f; h_pos := String.length content |}),
         fs)
    end.

(** Iterating over [f] until the iteration stops: the lines it yields, and
    the exception that stops it when it is not the end of the file. *)
Definition file_iter (f : handle) : io (list string * option exn) :=
  fun fs =>
    match fs !! h_path f with
    | Some (Undecodable readable) =>
        (Return (complete_lines (split_lines (str_drop (h_pos f) readable)),
                 Some UnicodeDecodeError),
         fs)
    | _ =>
        (Return (split_lines
                   (universal_newlines
                      (str_drop (h_pos f) (content_of fs (h_path f)))),
                 None),
         fs)
    end.

(** [f.write(s)]: [s] replaces the text at the position, which moves past
    it ([os.linesep] is [\n]). *)
Definition file_write (f : handle) (s : string) : io handle :=
  fun fs =>
    let content := content_of fs (h_path f) in
    let content' :=
      str_take (h_pos f) content +:+ s
      +:+ str_drop (h_pos f + String.length s) content in
    (Return {| h_path := h_path f; h_pos := h_pos f + String.length s |},
     <[h_path f := File content']> fs).

(** [f.writelines(lines)]: one [write] for each item. *)
Fixpoint file_writelines (f : handle) (lines : list string) : io handle :=
  match lines with
  | [] => ret f
  | item :: rest =>
      (let! f := file_write f item in file_writelines f rest)%io
  end.

(** ** Bootstrapper and tree check *)

(** The names imported from [nucypher.config.constants]. *)
Class constants : Type := {
  DEFAULT_CONFIG_ROOT : string;
  DEFAULT_INI_FILEPATH : string;
  DEFAULT_KEYRING_ROOT : string;
  DEFAULT_KNOWN_NODE_DIR : string;
  DEFAULT_SEED_NODE_DIR : string;
  DEFAULT_KNOWN_CERTIFICATES_DIR : string;
  DEFAULT_SEED_CERTIFICATES_DIR : string;
  DEFAULT_SEED_METADATA_DIR : string;
  DEFAULT_KNOWN_METADATA_DIR : string;
  TEMPLATE_INI_FILEPATH : string
}.

Section Bootstrap.

Context `{P : process} `{K : constants}.

(** The body of the [for] loop of [write_default_ini_config], run over the
    lines that are left. *)
Fixpoint copy_lines (new_file : handle) (lines : list string) : io handle :=
  match lines with
  | [] => ret new_file
  | line :: rest =>
      (let! new_file := file_writelines new_file (iter_str (lstrip ";" line)) in
       copy_lines new_file rest)%io
  end.

(** The two files are closed when the [with] block is left, normally or
    by an exception; every write has reached the file system by then.  The
    template is read only after both files are open, and the loop writes
    the lines the iteration yields until the iteration stops. *)
Definition write_default_ini_config (filepath : string) : io unit :=
  (let! template_file := open_r TEMPLATE_INI_FILEPATH in
   let! new_file := open_w_plus filepath in
   let! r := file_read new_file in
   if negb (bool_decide (fst r = "")) then
     raise (NucypherConfigurationError
              "{} is not a blank file.  Do you have an existing configuration?")
   else
     let new_file := snd r in
     let! it := file_iter template_file in
     let! new_file := copy_lines new_file (islice (fst it) 12) in
     match snd it with
     | Some e => raise e
     | None => ret tt
     end)%io.

(** [x if x else DEFAULT_CONFIG_ROOT] *)
Definition or_default_root (x : option string) : string :=
  match x with
  | Some s => if truthy x then s else DEFAULT_CONFIG_ROOT
  | None => DEFAULT_CONFIG_ROOT
  end.

Definition initialize_configuration (config_root : option string)
    : io (option string) :=
  let root := or_default_root config_root in
  (let! d := os_path_isdir root in
   if (d : bool) then
     raise (NucypherConfigurationError
              ("There are existing nucypher configuration files at "
               +:+ py_str_opt config_root))
   else
     do! os_mkdir root (octal 7 5 5) in
     do! os_mkdir DEFAULT_KEYRING_ROOT (octal 7 0 0) in
     do! os_mkdir DEFAULT_KNOWN_NODE_DIR (octal 7 5 5) in
     do! os_mkdir DEFAULT_KNOWN_CERTIFICATES_DIR (octal 7 5 5) in
     do! os_mkdir DEFAULT_KNOWN_METADATA_DIR (octal 7 5 5) in
     do! os_mkdir DEFAULT_SEED_NODE_DIR (octal 7 5 5) in
     do! os_mkdir DEFAULT_SEED_CERTIFICATES_DIR (octal 7 5 5) in
     do! os_mkdir DEFAULT_SEED_METADATA_DIR (octal 7 5 5) in
     do! write_default_ini_config DEFAULT_INI_FILEPATH in
     ret config_root)%io.

Definition check_config_tree (configuration_dir : option string) : io bool :=
  let path := or_default_root configuration_dir in
  (let! present := os_path_exists path in
   if negb present then
     raise (NucypherConfigurationError
              ("No Nucypher configuration directory found at "
               +:+ py_str_opt configuration_dir +:+ "."))
   else ret true)%io.

End Bootstrap.

(** ** Runtime guard *)

(** The loop over the rules of [check_config_runtime]: a rule that is not
    [True] raises a plain [Exception] with its reason. *)
Fixpoint check_runtime_rules (rules : list (bool * string)) : outcome bool :=
  match rules with
  | [] => Return true
  | (rule, failure_reason) :: rest =>
      if negb rule then Raise (Exception failure_reason)
      else check_runtime_rules rest
  end.

(** [os_name] is [os.name] and [getuid] the result of [os.getuid()], which
    is asked for only when the name is not ['nt']. *)
Definition check_config_runtime (os_name : string) (getuid : nat) : outcome bool :=
  let rules :=
    [ (bool_decide (os_name = "nt") || negb (bool_decide (getuid = 0)),
       "Cannot run as root user.") ] in
  check_runtime_rules rules.

(** ** Specification vocabulary *)

Definition nl : string := String LF "".

(** The value of the [mode] key as it is stored for the [nucypher]
    section: the section's own entry, else the [DEFAULT] one; [None] when
    the section is not there or neither dictionary has the key. *)
Definition configured_mode (doc : ConfigParser) : option string :=
  match _sections doc !! "nucypher" with
  | None => None
  | Some opts =>
      match opts !! "mode" with
      | Some v => Some v
      | None => _defaults doc !! "mode"
      end
  end.

(** The exceptions of interpolation. *)
Definition is_interpolation_error (e : exn) : Prop :=
  match e with
  | InterpolationSyntaxError _ _ _
  | InterpolationMissingOptionError _ _ _ _
  | InterpolationDepthError _ _ _ => True
  | _ => False
  end.

(** [needle] occurs in [haystack]. *)
Definition occurs_in (needle haystack : string) : Prop :=
  exists before after, haystack = before +:+ needle +:+ after.

Fixpoint str_concat (l : list string) : string :=
  match l with
  | [] => ""
  | x :: rest => x +:+ str_concat rest
  end.

(** A line of a text file: [\n] can only be its last character. *)
Fixpoint ends_line_only (l : string) : bool :=
  match l with
  | EmptyString => true
  | String c rest =>
      if decide (c = LF) then bool_decide (rest = "") else ends_line_only rest
  end.

Fixpoint str_repeat (c : ascii) (n : nat) : string :=
  match n with
  | O => ""
  | S n' => String c (str_repeat c n')
  end.

(** The lines from the 13th on, each without its leading semicolons, one
    after the other. *)
Definition stripped_tail (lines : list string) : string :=
  str_concat (map (lstrip ";") (drop 12 lines)).

(** The text the default ini file is meant to hold for a template with the
    text [content]: the template's lines from the 13th on, each without its
    leading semicolons, one after the other. *)
Definition expected_ini (content : string) : string :=
  str_concat (map (lstrip ";") (drop 12 (split_lines (universal_newlines content)))).

(** The text the template handle yields once the destination [filepath] was
    opened: nothing when the destination is the template itself. *)
Definition template_text `{P : process} `{K : constants}
    (filepath content : string) : string :=
  if decide (resolve filepath = resolve TEMPLATE_INI_FILEPATH) then ""
  else content.

(** A new entry can be made at [path]: its directory is there. *)
Definition parent_present `{P : process} (fs : filesystem) (path : string) : bool :=
  bool_decide (dirname (resolve path) = "")
  || match fs !! dirname (resolve path) with
     | Some (Dir _) => true
     | _ => false
     end.

(** [open(path, 'w+')] succeeds: [path] is a regular file, or is free and
    can be created. *)
Definition can_open_for_writing `{P : process} (fs : filesystem)
    (path : string) : bool :=
  negb (bool_decide (path = ""))
  && match fs !! resolve path with
     | Some (Dir _) => false
     | Some _ => true
     | None => parent_present fs path
     end.

(** An exception raised by the operating system rather than by the module. *)
Definition is_os_error (e : exn) : Prop :=
  match e with
  | FileExistsError _ | FileNotFoundError _
  | NotADirectoryError _ | IsADirectoryError _ => True
  | _ => False
  end.

(** An invariant of the file system that a computation keeps, however it
    ends. *)
Definition preserves {A : Type} (P : filesystem -> Prop) (m : io A) : Prop :=
  forall fs r fs', P fs -> m fs = (r, fs') -> P fs'.

(** What [validate_nucypher_ini_config] comes to for a document that was
    loaded, told by cases: the two early errors, the interpolation of the
    mode, then the mode and the [blockchain] section. *)
Definition validation_of (doc : ConfigParser) (raise_on_failure : bool)
    : outcome (bool * list string) :=
  if bool_decide (sections doc = []) then
    Raise (NucypherConfigurationError "Empty configuration file")
  else
    match configured_mode doc with
    | None => Raise (NucypherConfigurationError "No operating mode configured")
    | Some raw =>
        match before_get doc "nucypher" "mode" raw with
        | Raise e => Raise e
        | Return v =>
            if bool_decide (v ∈ modes) then
              if bool_decide ("blockchain" ∈ sections doc) then Return (true, [])
              else if raise_on_failure then
                Raise (NucypherConfigurationError
                         "Invalid config file: missing section 'blockchain'")
              else Return (false, ["blockchain"])
            else if raise_on_failure then
              Raise (NucypherConfigurationError
                       ("Invalid nucypher operating mode '" +:+ v
                        +:+ "'. Specify ('federated', 'testing', 'decentralized', 'centralized')"))
            else if bool_decide ("blockchain" ∈ sections doc)
            then Return (false, ["mode"])
            else Return (false, ["mode"; "blockchain"])
        end
    end.

(** A computation that leaves every file outside [names] as it was,
    however it ends. *)
Definition touches_only {A : Type} (names : list string) (m : io A) : Prop :=
  forall fs r fs' q, m fs = (r, fs') -> q ∉ names -> fs' !! q = fs !! q.

(** Two runs that leave the same file system and end the same way, by a
    return or by an exception. *)
Definition same_effect {A B : Type}
    (x : outcome A * filesystem) (y : outcome B * filesystem) : Prop :=
  snd x = snd y
  /\ match fst x, fst y with
     | Return _, Return _ => True
     | Raise _, Raise _ => True
     | _, _ => False
     end.

(** The files [initialize_configuration] writes to, for the root it uses,
    by their canonical names. *)
Definition tree_paths `{P : process} `{K : constants} (root : string)
    : list string :=
  map resolve
    [ root; DEFAULT_KEYRING_ROOT; DEFAULT_KNOWN_NODE_DIR;
      DEFAULT_KNOWN_CERTIFICATES_DIR; DEFAULT_KNOWN_METADATA_DIR;
      DEFAULT_SEED_NODE_DIR; DEFAULT_SEED_CERTIFICATES_DIR;
      DEFAULT_SEED_METADATA_DIR; DEFAULT_INI_FILEPATH ].

Definition starts_with_semicolon (l : string) : bool :=
  match l with
  | String c _ => bool_decide (c = ";"%char)
  | EmptyString => false
  end.

(** Well-formed lines of a text: every line but the last is a body without
    [\n] followed by [\n]; the last may lack the [\n] but is not empty. *)
Inductive lines_ok : list string -> Prop :=
  | lines_ok_nil : lines_ok []
  | lines_ok_last (l : string) :
      l ≠ "" -> char_in LF l = false -> lines_ok [l]
  | lines_ok_cons (body : string) (ls : list string) :
      char_in LF body = false -> lines_ok ls -> lines_ok ((body +:+ nl) :: ls).

(** The permission bits of owner, group and others. *)
Definition permission_bits : N := octal 7 7 7.

(** The permission bits of group and others. *)
Definition group_other_bits : N := octal 0 7 7.

(** ** Sample inputs *)

(** A process with the usual umask whose path names are canonical as they
    stand. *)
Definition sample_process : process :=
  {| umask := octal 0 2 2; resolve := fun path => path |}.

(** The same process with a umask that leaves access to the owner only. *)
Definition private_process : process :=
  {| umask := octal 0 7 7; resolve := fun path => path |}.

Definition sample_constants : constants := {|
  DEFAULT_CONFIG_ROOT := "/home/u/.local/share/nucypher";
  DEFAULT_INI_FILEPATH := "/home/u/.local/share/nucypher/nucypher.ini";
  DEFAULT_KEYRING_ROOT := "/home/u/.local/share/nucypher/keyring";
  DEFAULT_KNOWN_NODE_DIR := "/home/u/.local/share/nucypher/known_nodes";
  DEFAULT_SEED_NODE_DIR := "/home/u/.local/share/nucypher/seed_nodes";
  DEFAULT_KNOWN_CERTIFICATES_DIR :=
    "/home/u/.local/share/nucypher/known_nodes/certificates";
  DEFAULT_SEED_CERTIFICATES_DIR :=
    "/home/u/.local/share/nucypher/seed_nodes/certificates";
  DEFAULT_SEED_METADATA_DIR :=
    "/home/u/.local/share/nucypher/seed_nodes/metadata";
  DEFAULT_KNOWN_METADATA_DIR :=
    "/home/u/.local/share/nucypher/known_nodes/metadata";
  TEMPLATE_INI_FILEPATH := "/opt/nucypher/cli/.nucypher.ini"
|}.

(** A template of twelve header lines and four more. *)
Definition sample_template : string :=
  str_concat
    (map (fun line => line +:+ nl)
       [ "; h1"; "; h2"; "; h3"; "; h4"; "; h5"; "; h6";
         "; h7"; "; h8"; "; h9"; "; h10"; "; h11"; "; h12";
         ";[nucypher]"; ";;mode = federated"; ""; ";[blockchain]" ]).

Definition sample_ini : string :=
  str_concat
    (map (fun line => line +:+ nl)
       [ "[nucypher]"; "mode = federated"; ""; "[blockchain]" ]).

(** A machine on which nothing was configured yet. *)
Definition sample_fs : filesystem :=
  {[ "/home/u/.local/share" := Dir (octal 7 5 5);
     "/opt/nucypher/cli" := Dir (octal 7 5 5);
     "/opt/nucypher/cli/.nucypher.ini" := File sample_template ]}.

(** The same machine with the configuration root in place. *)
Definition sample_fs_configured : filesystem :=
  <[ "/home/u/.local/share/nucypher" := Dir (octal 7 5 5) ]> sample_fs.

(** The machine after the first call of [initialize_configuration()]. *)
Definition sample_fs_initialized : filesystem :=
  snd (initialize_configuration (P := sample_process) (K := sample_constants)
         None sample_fs).

(** A machine where a regular file sits at the default root. *)
Definition sample_fs_blocked : filesystem :=
  <[ "/home/u/.local/share/nucypher" := File "" ]> sample_fs.

(** A machine whose template turns out not to be text after its first
    fourteen lines. *)
Definition sample_fs_garbled : filesystem :=
  <[ "/opt/nucypher/cli/.nucypher.ini" :=
       Undecodable
         (str_concat
            (map (fun line => line +:+ nl)
               [ "; h1"; "; h2"; "; h3"; "; h4"; "; h5"; "; h6";
                 "; h7"; "; h8"; "; h9"; "; h10"; "; h11"; "; h12";
                 ";[nucypher]"; ";;mode = federated" ])
          +:+ ";[block") ]>
    (<[ "/home/u/.local/share/nucypher/nucypher.ini" := File "[old]" ]>
       sample_fs_configured).

Definition no_file : string -> outcome ConfigParser :=
  fun _ => Return {| _defaults := ∅; _sections := ∅ |}.

Definition doc_empty : ConfigParser :=
  {| _defaults := {[ "mode" := "federated" ]}; _sections := ∅ |}.


Definition doc_federated : ConfigParser :=
  {| _defaults := ∅;
     _sections := {[ "nucypher" := {[ "mode" := "federated" ]};
                     "blockchain" := ∅ ]} |}.

Definition doc_no_blockchain : ConfigParser :=
  {| _defaults := ∅;
     _sections := {[ "nucypher" := {[ "mode" := "testing" ]} ]} |}.

Definition doc_bad_mode : ConfigParser :=
  {| _defaults := ∅;
     _sections := {[ "nucypher" := {[ "mode" := "unsupported_value" ]};
                     "blockchain" := ∅ ]} |}.


(** The mode refers to an option that is nowhere. *)
Definition doc_unresolved_mode : ConfigParser :=
  {| _defaults := ∅;
     _sections := {[ "nucypher" := {[ "mode" := "%(nope)s" ]};
                     "blockchain" := ∅ ]} |}.

(** ** Facts about strings *)

Lemma str_app_cons (x : ascii) (a b : string) :
  String x a +:+ b = String x (a +:+ b).
Proof. reflexivity. Qed.

Lemma str_app_nil_l (a : string) : "" +:+ a = a.
Proof. reflexivity. Qed.

Lemma str_app_assoc (a b c : string) : (a +:+ b) +:+ c = a +:+ (b +:+ c).
Proof.
  induction a as [|x a IH]; [reflexivity|].
  rewrite !str_app_cons. by rewrite IH.
Qed.

Lemma str_app_nil_r (a : string) : a +:+ "" = a.
Proof.
  induction a as [|x a IH]; [reflexivity|].
  rewrite str_app_cons. by rewrite IH.
Qed.

Lemma str_length_app (a b : string) :
  String.length (a +:+ b) = String.length a + String.length b.
Proof.
  induction a as [|x a IH]; [reflexivity|].
  rewrite str_app_cons. simpl. by rewrite IH.
Qed.

(** *** Lines and stripping *)

(** [lstrip(';')] removes a run of semicolons from the front, and all of
    it. *)
Lemma lstrip_semicolons (s : string) :
  exists n,
    s = str_repeat ";" n +:+ lstrip ";" s
    /\ forall rest, lstrip ";" s ≠ String ";" rest.
Proof.
  induction s as [|c s (n & Hs & Hrest)].
  - exists 0. split; [reflexivity | discriminate].
  - simpl. destruct (bool_decide_reflect (c = ";"%char)) as [->|Hc]; simpl.
    + exists (S n). split; [|exact Hrest].
      simpl. rewrite str_app_cons. by rewrite <- Hs.
    + exists 0. split; [reflexivity|]. intros rest [= ? _]. done.
Qed.

(** The lines of a text, put together again, are the text. *)
Lemma split_lines_concat (s : string) : str_concat (split_lines s) = s.
Proof.
  induction s as [|c s IH]; simpl; [reflexivity|].
  destruct (decide (c = LF)); simpl.
  - by rewrite IH.
  - destruct (split_lines s) as [|l ls]; simpl in *.
    + by rewrite <- IH.
    + rewrite str_app_cons. by rewrite IH.
Qed.

(** No line is empty, and a line break is the last character of its line. *)
Lemma split_lines_shape (s : string) :
  Forall (fun l => l ≠ "" /\ ends_line_only l = true) (split_lines s).
Proof.
  induction s as [|c s IH]; simpl; [constructor|].
  destruct (decide (c = LF)) as [->|Hc].
  - constructor; [|exact IH]. split; [discriminate | reflexivity].
  - destruct (split_lines s) as [|l ls].
    + constructor; [|constructor]. split; [discriminate|].
      simpl. by rewrite decide_False.
    + inversion IH as [|? ? [_ Hl] Hls]; subst.
      constructor; [|exact Hls]. split; [discriminate|].
      simpl. by rewrite decide_False.
Qed.

(** After the translation of line ends no carriage return is left. *)
Lemma universal_newlines_no_CR (s : string) :
  char_in CR (universal_newlines s) = false.
Proof.
  enough (char_in CR (universal_newlines s) = false
          /\ forall c, char_in CR (universal_newlines (String c s)) = false)
    as [H _] by exact H.
  induction s as [|x s [IH1 IH2]].
  - split; [reflexivity|]. intros c. simpl.
    destruct (decide (c = CR)) as [->|Hc]; [reflexivity|].
    simpl. rewrite bool_decide_eq_false_2 by congruence. reflexivity.
  - split; [apply IH2|]. intros c.
    change (universal_newlines (String c (String x s)))
      with (if decide (c = CR)
            then String LF (if decide (x = LF) then universal_newlines s
                            else universal_newlines (String x s))
            else String c (universal_newlines (String x s))).
    destruct (decide (c = CR)) as [->|Hc].
    + change (char_in CR (String LF ?t)) with (char_in CR t).
      destruct (decide (x = LF)); [exact IH1 | apply IH2].
    + cbn [char_in]. rewrite bool_decide_eq_false_2 by congruence.
      apply IH2.
Qed.

(** ** Properties of the validator *)

Lemma check_rules_never_false (rules : list (bool * string)) :
  check_rules rules ≠ Return false.
Proof.
  induction rules as [|[rule failure_message] rest IH]; simpl.
  - discriminate.
  - destruct rule; simpl; [exact IH | discriminate].
Qed.

(** C4. A passphrase shorter than 16 characters raises the configuration
    error with the too-short message, one of 16 characters or more makes
    [validate_passphrase] return [True], and [False] is never returned. *)
Theorem validate_passphrase_spec (passphrase : string) :
  (String.length passphrase < 16 ->
   validate_passphrase passphrase
   = Raise (NucypherConfigurationError
              "Passphrase is too short, must be >= 16 chars."))
  /\ (16 <= String.length passphrase ->
      validate_passphrase passphrase = Return true)
  /\ validate_passphrase passphrase ≠ Return false.
Proof.
  unfold validate_passphrase. split_and!.
  - intros Hlt. cbn -[Nat.leb].
    destruct (Nat.leb_spec 16 (String.length passphrase)); [lia | reflexivity].
  - intros Hge. cbn -[Nat.leb].
    destruct (Nat.leb_spec 16 (String.length passphrase)); [reflexivity | lia].
  - apply check_rules_never_false.
Qed.

Lemma validate_passphrase_spec_witness :
  validate_passphrase "hunter2"
  = Raise (NucypherConfigurationError
             "Passphrase is too short, must be >= 16 chars.")
  /\ validate_passphrase "correct horse battery staple" = Return true.
Proof.
  split.
  - apply (validate_passphrase_spec "hunter2"). simpl. lia.
  - apply (validate_passphrase_spec "correct horse battery staple"). simpl. lia.
Defined.

Lemma has_section_lookup (doc : ConfigParser) (name : string) :
  has_section doc name = bool_decide (is_Some (_sections doc !! name)).
Proof.
  unfold has_section, sections.
  apply bool_decide_ext. rewrite elem_of_elements. apply elem_of_dom.
Qed.

Lemma elem_of_sections (doc : ConfigParser) (name : string) :
  name ∈ sections doc <-> is_Some (_sections doc !! name).
Proof. unfold sections. rewrite elem_of_elements. apply elem_of_dom. Qed.

(** *** Interpolation *)

(** Text without [%] is its own interpolation. *)
Lemma scan_no_percent nested lookup key section rawval (s : string) :
  char_in "%" s = false ->
  scan nested lookup key section rawval s = Return s.
Proof.
  induction s as [|c s IH]; [reflexivity|]. intros Hs. simpl in Hs.
  apply orb_false_iff in Hs as [Hc Hs].
  assert (bool_decide (c = "%"%char) = false) as Hc'.
  { apply bool_decide_eq_false. apply bool_decide_eq_false in Hc. congruence. }
  simpl. rewrite Hc'. simpl. by rewrite (IH Hs).
Qed.

(** The scan raises nothing but interpolation errors. *)
Lemma scan_raises nested lookup key section rawval :
  (forall v e, nested v = Raise e -> is_interpolation_error e) ->
  forall n rest, String.length rest <= n ->
    (forall e, scan nested lookup key section rawval rest = Raise e ->
               is_interpolation_error e)
    /\ (forall at_percent name e,
          reference nested lookup key section rawval at_percent name rest
          = Raise e ->
          is_interpolation_error e).
Proof.
  intros Hnested. induction n as [|n IH]; intros rest Hlen.
  - destruct rest; [|simpl in Hlen; lia]. split.
    + discriminate.
    + intros at_percent name e [= <-]. exact I.
  - destruct rest as [|c r]; [apply (IH ""); simpl; lia|].
    simpl in Hlen. assert (String.length r <= n) as Hr by lia.
    destruct (IH r Hr) as [IHscan IHref]. split.
    + intros e. simpl.
      destruct (bool_decide (c = "%"%char)); simpl.
      * destruct r as [|d r']; [intros [= <-]; exact I|].
        assert (String.length r' <= n) as Hr' by (simpl in Hr; lia).
        destruct (IH r' Hr') as [IHscan' IHref'].
        destruct (bool_decide (d = "%"%char)).
        -- destruct (scan nested lookup key section rawval r') eqn:Hs;
             simpl; [discriminate|]. intros [= <-]. by eapply IHscan'.
        -- destruct (bool_decide (d = "("%char)); [apply IHref'|].
           intros [= <-]. exact I.
      * destruct (scan nested lookup key section rawval r) eqn:Hs;
          simpl; [discriminate|]. intros [= <-]. by eapply IHscan.
    + intros at_percent name e. simpl.
      destruct (bool_decide (c = ")"%char)); [|apply IHref].
      destruct name as [|x name]; [intros [= <-]; exact I|].
      destruct r as [|s after]; [intros [= <-]; exact I|].
      destruct (bool_decide (s = "s"%char)); [|intros [= <-]; exact I].
      destruct (lookup (str_lower (String x name))) as [v|];
        [|intros [= <-]; exact I].
      assert (String.length after <= n) as Hafter by (simpl in Hr; lia).
      destruct (IH after Hafter) as [IHscan' _].
      destruct (char_in "%" v).
      * destruct (nested v) eqn:Hv; simpl; [|intros [= <-]; by eapply Hnested].
        destruct (scan nested lookup key section rawval after) eqn:Hs;
          simpl; [discriminate|]. intros [= <-]. by eapply IHscan'.
      * simpl.
        destruct (scan nested lookup key section rawval after) eqn:Hs;
          simpl; [discriminate|]. intros [= <-]. by eapply IHscan'.
Qed.

Lemma interpolate_some_raises levels lookup key section rawval rest e :
  interpolate_some levels lookup key section rawval rest = Raise e ->
  is_interpolation_error e.
Proof.
  revert rest e. induction levels as [|levels IH]; intros rest e; simpl.
  - intros [= <-]. exact I.
  - intros Hscan.
    destruct (scan_raises _ lookup key section rawval IH
                (String.length rest) rest (le_n _)) as [Hraise _].
    exact (Hraise e Hscan).
Qed.

Lemma before_get_raises doc section key value e :
  before_get doc section key value = Raise e -> is_interpolation_error e.
Proof. apply interpolate_some_raises. Qed.

(** The four modes come out of interpolation as they went in. *)
Lemma before_get_mode doc section key (v : string) :
  v ∈ modes -> before_get doc section key v = Return v.
Proof.
  intros Hv. unfold before_get, MAX_INTERPOLATION_DEPTH. simpl.
  apply scan_no_percent. unfold modes in Hv.
  rewrite !elem_of_cons in Hv.
  destruct Hv as [-> | [-> | [-> | [-> | Hv]]]];
    [reflexivity.. | by apply elem_of_nil in Hv].
Qed.

(** The expression under [try]: it evaluates to the interpolated mode, and
    raises [KeyError] exactly when no mode is stored. *)
Lemma mode_lookup_Some (doc : ConfigParser) (raw : string) :
  configured_mode doc = Some raw ->
  (let? proxy := parser_getitem doc "nucypher" in
   proxy_getitem doc proxy "mode")%outcome
  = before_get doc "nucypher" "mode" raw.
Proof.
  unfold configured_mode, parser_getitem, proxy_getitem, has_option, get, raw_get.
  rewrite has_section_lookup.
  destruct (_sections doc !! "nucypher") as [opts|] eqn:Hs; [|discriminate].
  intros Hv. simpl. rewrite Hs. simpl.
  destruct (opts !! "mode") as [w|] eqn:Ho; simpl.
  - congruence.
  - rewrite Hv. simpl. reflexivity.
Qed.

Lemma mode_lookup_None (doc : ConfigParser) :
  configured_mode doc = None ->
  exists key,
    (let? proxy := parser_getitem doc "nucypher" in
     proxy_getitem doc proxy "mode")%outcome = Raise (KeyError key).
Proof.
  unfold configured_mode, parser_getitem, proxy_getitem, has_option, get.
  rewrite has_section_lookup.
  destruct (_sections doc !! "nucypher") as [opts|] eqn:Hs; simpl.
  - rewrite Hs. simpl.
    destruct (opts !! "mode") as [w|] eqn:Ho; [discriminate|].
    intros Hd. rewrite Hd. simpl. eauto.
  - intros _. eauto.
Qed.

Lemma sections_nonempty (doc : ConfigParser) (name : string) :
  name ∈ sections doc -> bool_decide (sections doc = []) = false.
Proof.
  intros Hin. apply bool_decide_eq_false. intros Hnil.
  rewrite Hnil in Hin. by apply elem_of_nil in Hin.
Qed.

Lemma configured_mode_section (doc : ConfigParser) (v : string) :
  configured_mode doc = Some v -> "nucypher" ∈ sections doc.
Proof.
  unfold configured_mode. intros Hv. apply elem_of_sections.
  destruct (_sections doc !! "nucypher"); [eauto | discriminate].
Qed.

Section ValidatorProperties.

Variable read_ini : string -> outcome ConfigParser.

Local Abbreviation validate := (validate_nucypher_ini_config read_ini).

Lemma validate_unloaded config filepath raise_on_failure e :
  load_config read_ini config filepath = Raise e ->
  validate config filepath raise_on_failure = Raise e.
Proof. intros Hload. unfold validate_nucypher_ini_config. by rewrite Hload. Qed.

(** The checks after a mode was found and interpolated, for a document
    that was loaded. *)
Lemma validate_with_mode config filepath doc raw v raise_on_failure :
  load_config read_ini config filepath = Return doc ->
  configured_mode doc = Some raw ->
  before_get doc "nucypher" "mode" raw = Return v ->
  validate config filepath raise_on_failure
  = (let? missing_sections :=
       (if negb (bool_decide (v ∈ modes)) then
          if raise_on_failure then
            Raise (NucypherConfigurationError
                     ("Invalid nucypher operating mode '" +:+ v
                      +:+ "'. Specify " +:+ py_str_tuple modes))
          else Return ["mode"]
        else Return []) in
     let? missing_sections :=
       check_required_sections doc raise_on_failure
         required_sections missing_sections in
     if (0 <? length missing_sections)%nat
     then Return (false, missing_sections)
     else Return (true, []))%outcome.
Proof.
  intros Hload Hraw Hv. unfold validate_nucypher_ini_config.
  rewrite Hload. simpl obind at 1.
  rewrite (sections_nonempty doc "nucypher")
    by (eapply configured_mode_section; eauto).
  rewrite (mode_lookup_Some doc raw Hraw), Hv. reflexivity.
Qed.

(** An error of the interpolation of the mode goes through. *)
Lemma validate_mode_error config filepath doc raw e raise_on_failure :
  load_config read_ini config filepath = Return doc ->
  configured_mode doc = Some raw ->
  before_get doc "nucypher" "mode" raw = Raise e ->
  validate config filepath raise_on_failure = Raise e.
Proof.
  intros Hload Hraw He. unfold validate_nucypher_ini_config.
  rewrite Hload. simpl obind at 1.
  rewrite (sections_nonempty doc "nucypher")
    by (eapply configured_mode_section; eauto).
  rewrite (mode_lookup_Some doc raw Hraw), He.
  pose proof (before_get_raises _ _ _ _ _ He) as Hie.
  by destruct e.
Qed.

(** The function and its table of cases agree. *)
Lemma validate_loaded config filepath doc raise_on_failure :
  load_config read_ini config filepath = Return doc ->
  validate config filepath raise_on_failure = validation_of doc raise_on_failure.
Proof.
  intros Hload. unfold validation_of.
  destruct (bool_decide (sections doc = [])) eqn:Hempty.
  - unfold validate_nucypher_ini_config. rewrite Hload. simpl.
    by rewrite Hempty.
  - destruct (configured_mode doc) as [raw|] eqn:Hraw.
    + destruct (before_get doc "nucypher" "mode" raw) as [v|e] eqn:Hv.
      * rewrite (validate_with_mode _ _ doc raw v _ Hload Hraw Hv).
        pose proof (configured_mode_section doc raw Hraw) as Hsec.
        destruct (bool_decide (v ∈ modes)); simpl;
          destruct raise_on_failure; simpl; try reflexivity;
          rewrite (bool_decide_eq_true_2 _ Hsec);
          destruct (bool_decide ("blockchain" ∈ sections doc)); reflexivity.
      * by apply (validate_mode_error _ _ doc raw).
    + unfold validate_nucypher_ini_config. rewrite Hload. simpl obind at 1.
      rewrite Hempty.
      destruct (mode_lookup_None doc Hraw) as [key ->]. reflexivity.
Qed.


(** C5. A document whose [nucypher] section has a [mode] among the four
    allowed values, and which has a [blockchain] section, validates to
    [(True, ())] whatever [raise_on_failure] is. *)
Theorem validate_well_formed config filepath doc v raise_on_failure :
  load_config read_ini config filepath = Return doc ->
  configured_mode doc = Some v ->
  v ∈ modes ->
  "blockchain" ∈ sections doc ->
  validate config filepath raise_on_failure = Return (true, []).
Proof.
  intros Hload Hv Hmode Hblock.
  rewrite (validate_with_mode _ _ doc v v raise_on_failure Hload Hv
             (before_get_mode doc _ _ v Hmode)).
  rewrite (bool_decide_eq_true_2 _ Hmode). simpl.
  rewrite (bool_decide_eq_true_2 _ (configured_mode_section doc v Hv)).
  rewrite (bool_decide_eq_true_2 _ Hblock). reflexivity.
Qed.

(** C6. With a valid mode and no [blockchain] section, the call with
    [raise_on_failure=False] returns [(False, ('blockchain',))] and the
    call with [raise_on_failure=True] raises the configuration error whose
    message names the missing [blockchain] section. *)
Theorem validate_missing_blockchain config filepath doc v :
  load_config read_ini config filepath = Return doc ->
  configured_mode doc = Some v ->
  v ∈ modes ->
  "blockchain" ∉ sections doc ->
  validate config filepath false = Return (false, ["blockchain"])
  /\ validate config filepath true
     = Raise (NucypherConfigurationError
                "Invalid config file: missing section 'blockchain'")
  /\ occurs_in "blockchain" "Invalid config file: missing section 'blockchain'".
Proof.
  intros Hload Hv Hmode Hblock.
  pose proof (before_get_mode doc "nucypher" "mode" v Hmode) as Hget.
  split_and!.
  - rewrite (validate_with_mode _ _ doc v v false Hload Hv Hget).
    rewrite (bool_decide_eq_true_2 _ Hmode). simpl.
    rewrite (bool_decide_eq_true_2 _ (configured_mode_section doc v Hv)).
    rewrite (bool_decide_eq_false_2 _ Hblock). reflexivity.
  - rewrite (validate_with_mode _ _ doc v v true Hload Hv Hget).
    rewrite (bool_decide_eq_true_2 _ Hmode). simpl.
    rewrite (bool_decide_eq_true_2 _ (configured_mode_section doc v Hv)).
    rewrite (bool_decide_eq_false_2 _ Hblock). reflexivity.
  - exists "Invalid config file: missing section '", "'". reflexivity.
Qed.

(** C7, as amended.  When the [mode] of the [nucypher] section, as the
    parser hands it out after interpolation, is a value outside the four
    allowed ones, the call with [raise_on_failure=True] raises the
    configuration error whose message holds that value and each of the four
    allowed modes; the call with [raise_on_failure=False] returns [False]
    with a missing list that starts with ['mode'] (followed by
    ['blockchain'] when that section is absent). *)
Theorem validate_invalid_mode config filepath doc raw v :
  load_config read_ini config filepath = Return doc ->
  configured_mode doc = Some raw ->
  before_get doc "nucypher" "mode" raw = Return v ->
  v ∉ modes ->
  (exists msg,
     validate config filepath true = Raise (NucypherConfigurationError msg)
     /\ msg = "Invalid nucypher operating mode '" +:+ v
              +:+ "'. Specify ('federated', 'testing', 'decentralized', 'centralized')"
     /\ occurs_in v msg
     /\ forall m, m ∈ modes -> occurs_in m msg)
  /\ (exists missing,
        validate config filepath false = Return (false, missing)
        /\ "mode" ∈ missing
        /\ missing = if bool_decide ("blockchain" ∈ sections doc)
                     then ["mode"] else ["mode"; "blockchain"]).
Proof.
  intros Hload Hraw Hv Hmode. split.
  - eexists. split_and!.
    + rewrite (validate_with_mode _ _ doc raw v true Hload Hraw Hv).
      rewrite (bool_decide_eq_false_2 _ Hmode). reflexivity.
    + reflexivity.
    + exists "Invalid nucypher operating mode '". eexists. reflexivity.
    + intros m Hm. unfold modes in Hm.
      rewrite !elem_of_cons in Hm.
      destruct Hm as [-> | [-> | [-> | [-> | Hm]]]];
        [ | | | | by apply elem_of_nil in Hm ].
      * exists ("Invalid nucypher operating mode '" +:+ v +:+ "'. Specify ('"),
          "', 'testing', 'decentralized', 'centralized')".
        rewrite !str_app_assoc. reflexivity.
      * exists ("Invalid nucypher operating mode '" +:+ v
                +:+ "'. Specify ('federated', '"),
          "', 'decentralized', 'centralized')".
        rewrite !str_app_assoc. reflexivity.
      * exists ("Invalid nucypher operating mode '" +:+ v
                +:+ "'. Specify ('federated', 'testing', '"),
          "', 'centralized')".
        rewrite !str_app_assoc. reflexivity.
      * exists ("Invalid nucypher operating mode '" +:+ v
                +:+ "'. Specify ('federated', 'testing', 'decentralized', '"),
          "')".
        rewrite !str_app_assoc. reflexivity.
  - eexists. split_and!.
    + rewrite (validate_with_mode _ _ doc raw v false Hload Hraw Hv).
      rewrite (bool_decide_eq_false_2 _ Hmode). simpl.
      rewrite (bool_decide_eq_true_2 _ (configured_mode_section doc raw Hraw)).
      simpl. destruct (bool_decide ("blockchain" ∈ sections doc)) eqn:Hb;
        simpl; [instantiate (1 := if bool_decide ("blockchain" ∈ sections doc)
                                  then ["mode"] else ["mode"; "blockchain"]);
                rewrite Hb; reflexivity | rewrite Hb; reflexivity ].
    + destruct (bool_decide ("blockchain" ∈ sections doc)); set_solver.
    + reflexivity.
Qed.

End ValidatorProperties.



Lemma validate_well_formed_witness :
  validate_nucypher_ini_config no_file (Some doc_federated) "nucypher.ini" true
  = Return (true, []).
Proof.
  apply (validate_well_formed no_file (Some doc_federated) "nucypher.ini"
           doc_federated "federated" true eq_refl).
  - vm_compute. reflexivity.
  - unfold modes. set_solver.
  - apply elem_of_sections. vm_compute. eauto.
Defined.

Lemma validate_missing_blockchain_witness :
  validate_nucypher_ini_config no_file (Some doc_no_blockchain) "nucypher.ini" false
  = Return (false, ["blockchain"])
  /\ validate_nucypher_ini_config no_file (Some doc_no_blockchain) "nucypher.ini" true
     = Raise (NucypherConfigurationError
                "Invalid config file: missing section 'blockchain'")
  /\ occurs_in "blockchain" "Invalid config file: missing section 'blockchain'".
Proof.
  apply (validate_missing_blockchain no_file (Some doc_no_blockchain)
           "nucypher.ini" doc_no_blockchain "testing" eq_refl).
  - vm_compute. reflexivity.
  - unfold modes. set_solver.
  - rewrite elem_of_sections. vm_compute. intros [x Hx]. discriminate.
Defined.

Lemma validate_invalid_mode_witness :
  validate_nucypher_ini_config no_file (Some doc_bad_mode) "nucypher.ini" true
  = Raise (NucypherConfigurationError
             "Invalid nucypher operating mode 'unsupported_value'. Specify ('federated', 'testing', 'decentralized', 'centralized')")
  /\ validate_nucypher_ini_config no_file (Some doc_bad_mode) "nucypher.ini" false
     = Return (false, ["mode"]).
Proof.
  assert ("unsupported_value" ∉ modes) as Hbad.
  { unfold modes. rewrite !not_elem_of_cons. split_and!; try discriminate.
    apply not_elem_of_nil. }
  destruct (validate_invalid_mode no_file (Some doc_bad_mode) "nucypher.ini"
              doc_bad_mode "unsupported_value" "unsupported_value"
              eq_refl eq_refl eq_refl Hbad)
    as [(msg & Hraise & -> & _) (missing & Hret & _ & ->)].
  split; [exact Hraise | exact Hret].
Defined.

(** C7, as stated, fails on a document whose [mode] refers to an option
    that does not exist: the value stored is outside the four allowed ones,
    and the call raises the parser's [InterpolationMissingOptionError] for
    both values of [raise_on_failure], not the configuration error, and
    returns no missing list. *)
Lemma validate_unresolved_mode :
  configured_mode doc_unresolved_mode = Some "%(nope)s"
  /\ ("%(nope)s" ∉ modes)
  /\ forall raise_on_failure,
       validate_nucypher_ini_config no_file (Some doc_unresolved_mode)
         "nucypher.ini" raise_on_failure
       = Raise (InterpolationMissingOptionError
                  "mode" "nucypher" "%(nope)s" "nope").
Proof.
  split_and!.
  - vm_compute. reflexivity.
  - unfold modes. rewrite !not_elem_of_cons. split_and!; try discriminate.
    apply not_elem_of_nil.
  - intros [|]; vm_compute; reflexivity.
Qed.

(** ** Facts about computations on the file system *)

Lemma iobind_inv {A B : Type} (m : io A) (k : A -> io B) fs r fs' :
  iobind m k fs = (r, fs') ->
  (exists a fs0, m fs = (Return a, fs0) /\ k a fs0 = (r, fs'))
  \/ (exists e, m fs = (Raise e, fs') /\ r = Raise e).
Proof.
  unfold iobind. destruct (m fs) as [[a|e] fs0]; intros H.
  - left. eauto.
  - right. injection H as <- <-. eauto.
Qed.

Lemma iobind_Return {A B : Type} (m : io A) (k : A -> io B) fs a fs0 :
  m fs = (Return a, fs0) -> iobind m k fs = k a fs0.
Proof. unfold iobind. by intros ->. Qed.

Lemma iobind_Raise {A B : Type} (m : io A) (k : A -> io B) fs e fs0 :
  m fs = (Raise e, fs0) -> iobind m k fs = (Raise e, fs0).
Proof. unfold iobind. by intros ->. Qed.

Lemma preserves_ret {A : Type} (P : filesystem -> Prop) (a : A) :
  preserves P (ret a).
Proof. intros fs r fs' HP [= <- <-]. exact HP. Qed.

Lemma preserves_raise {A : Type} (P : filesystem -> Prop) (e : exn) :
  preserves P (@raise A e).
Proof. intros fs r fs' HP [= <- <-]. exact HP. Qed.

Lemma preserves_bind {A B : Type} (P : filesystem -> Prop)
    (m : io A) (k : A -> io B) :
  preserves P m -> (forall a, preserves P (k a)) -> preserves P (iobind m k).
Proof.
  intros Hm Hk fs r fs' HP Hrun.
  apply iobind_inv in Hrun as [(a & fs0 & Hma & Hka) | (e & Hme & _)].
  - eapply Hk; [|exact Hka]. eapply Hm; eauto.
  - eapply Hm; eauto.
Qed.

(** *** Text at a position *)

Lemma str_take_length (c : string) : str_take (String.length c) c = c.
Proof. induction c as [|x c IH]; simpl; [reflexivity | by rewrite IH]. Qed.

Lemma str_drop_past (c : string) (n : nat) :
  str_drop (String.length c + n) c = "".
Proof. induction c as [|x c IH]; simpl; [by destruct n | exact IH]. Qed.

Lemma str_concat_iter_str (s : string) : str_concat (iter_str s) = s.
Proof. induction s as [|x s IH]; simpl; [reflexivity | by rewrite IH]. Qed.

Lemma str_concat_app (l1 l2 : list string) :
  str_concat (l1 ++ l2)%list = str_concat l1 +:+ str_concat l2.
Proof.
  induction l1 as [|x l1 IH]; simpl; [reflexivity|].
  by rewrite IH, str_app_assoc.
Qed.

(** *** Reading and writing *)

Lemma content_of_File (fs : filesystem) path c :
  fs !! path = Some (File c) -> content_of fs path = c.
Proof. unfold content_of. by intros ->. Qed.

(** A write at the end of a file appends. *)
Lemma file_write_at_end (fs : filesystem) path c s :
  fs !! path = Some (File c) ->
  file_write {| h_path := path; h_pos := String.length c |} s fs
  = (Return {| h_path := path; h_pos := String.length (c +:+ s) |},
     <[path := File (c +:+ s)]> fs).
Proof.
  intros Hc. unfold file_write. simpl.
  rewrite (content_of_File fs path c Hc).
  rewrite str_take_length, str_drop_past, str_app_nil_r, str_length_app.
  reflexivity.
Qed.

Lemma file_writelines_at_end (items : list string) :
  forall (fs : filesystem) path c,
    fs !! path = Some (File c) ->
    file_writelines {| h_path := path; h_pos := String.length c |} items fs
    = (Return {| h_path := path;
                 h_pos := String.length (c +:+ str_concat items) |},
       <[path := File (c +:+ str_concat items)]> fs).
Proof.
  induction items as [|item rest IH]; intros fs path c Hc; simpl.
  - unfold ret. rewrite str_app_nil_r. by rewrite insert_id.
  - rewrite (iobind_Return _ _ _ _ _ (file_write_at_end fs path c item Hc)).
    rewrite IH by apply lookup_insert_eq.
    by rewrite insert_insert_eq, str_app_assoc.
Qed.
Section BootstrapFacts.

Context `{P : process} `{K : constants}.

Lemma copy_lines_at_end (lines : list string) :
  forall (fs : filesystem) path c,
    fs !! path = Some (File c) ->
    copy_lines {| h_path := path; h_pos := String.length c |} lines fs
    = (Return {| h_path := path;
                 h_pos := String.length
                            (c +:+ str_concat (map (lstrip ";") lines)) |},
       <[path := File (c +:+ str_concat (map (lstrip ";") lines))]> fs).
Proof.
  induction lines as [|line rest IH]; intros fs path c Hc; simpl.
  - unfold ret. rewrite str_app_nil_r. by rewrite insert_id.
  - rewrite (iobind_Return _ _ _ _ _
               (file_writelines_at_end _ fs path c Hc)).
    rewrite str_concat_iter_str.
    rewrite IH by apply lookup_insert_eq.
    by rewrite insert_insert_eq, str_app_assoc.
Qed.

(** *** Opening files *)

Lemma stat_Some (fs : filesystem) path n :
  stat fs path = Some n <-> path ≠ "" /\ fs !! resolve path = Some n.
Proof.
  unfold stat. destruct (bool_decide_reflect (path = "")) as [->|Hne].
  - split; [discriminate | by intros [? _]].
  - split; [done | by intros [_ ?]].
Qed.

Lemma stat_None (fs : filesystem) path :
  fs !! resolve path = None -> stat fs path = None.
Proof. unfold stat. by destruct (bool_decide (path = "")). Qed.

Lemma check_parent_run (fs : filesystem) path :
  check_parent path fs
  = (if parent_present fs path then Return tt
     else match fs !! dirname (resolve path) with
          | Some _ => Raise (NotADirectoryError path)
          | None => Raise (FileNotFoundError path)
          end,
     fs).
Proof.
  unfold check_parent, parent_present.
  destruct (bool_decide (dirname (resolve path) = "")); simpl; [reflexivity|].
  destruct (fs !! dirname (resolve path)) as [[mode|content|readable]|];
    reflexivity.
Qed.

Lemma open_w_plus_ok (fs : filesystem) path :
  can_open_for_writing fs path = true ->
  open_w_plus path fs
  = (Return {| h_path := resolve path; h_pos := 0 |},
     <[resolve path := File ""]> fs).
Proof.
  unfold can_open_for_writing, open_w_plus.
  destruct (bool_decide (path = "")); [done|]. simpl.
  destruct (fs !! resolve path) as [[mode|content|readable]|]; try done.
  intros Hp. by rewrite check_parent_run, Hp.
Qed.

Lemma open_w_plus_refused (fs : filesystem) path :
  can_open_for_writing fs path = false ->
  exists e, is_os_error e /\ open_w_plus path fs = (Raise e, fs).
Proof.
  unfold can_open_for_writing, open_w_plus.
  destruct (bool_decide (path = ""));
    [intros _; eexists; split; [|reflexivity]; exact I|]. simpl.
  destruct (fs !! resolve path) as [[mode|content|readable]|]; try done.
  - intros _. eexists. split; [|reflexivity]. exact I.
  - intros Hp. rewrite check_parent_run, Hp.
    destruct (fs !! dirname (resolve path));
      eexists; (split; [|reflexivity]); exact I.
Qed.

Lemma open_w_plus_inv (fs : filesystem) path h fs1 :
  open_w_plus path fs = (Return h, fs1) ->
  can_open_for_writing fs path = true
  /\ h = {| h_path := resolve path; h_pos := 0 |}
  /\ fs1 = <[resolve path := File ""]> fs.
Proof.
  destruct (can_open_for_writing fs path) eqn:Hc.
  - rewrite (open_w_plus_ok fs path Hc). by intros [= <- <-].
  - destruct (open_w_plus_refused fs path Hc) as (e & _ & ->). discriminate.
Qed.

Lemma can_open_not_dir (fs : filesystem) path mode :
  can_open_for_writing fs path = true -> fs !! resolve path ≠ Some (Dir mode).
Proof.
  unfold can_open_for_writing. intros Hopen Hdir. rewrite Hdir in Hopen.
  by destruct (bool_decide (path = "")).
Qed.

Lemma can_open_named (fs : filesystem) path :
  can_open_for_writing fs path = true -> path ≠ "".
Proof.
  unfold can_open_for_writing. intros Hopen ->. discriminate.
Qed.

End BootstrapFacts.

(** What [read] returns on a file that was just opened with ['w+']. *)
Lemma file_read_fresh (fs : filesystem) name :
  file_read {| h_path := name; h_pos := 0 |} (<[name := File ""]> fs)
  = (Return ("", {| h_path := name; h_pos := 0 |}), <[name := File ""]> fs).
Proof.
  unfold file_read. simpl. rewrite lookup_insert_eq.
  by rewrite (content_of_File _ name "" (lookup_insert_eq _ _ _)).
Qed.

Section BootstrapProperties.

Context `{P : process} `{K : constants}.

(** A run of [write_default_ini_config] in which both files open: it ends
    by the decoder's exception when the template, read after the
    destination was emptied, is not all text, and returns otherwise. *)
Lemma write_default_ini_config_opened (fs : filesystem) filepath n :
  stat fs TEMPLATE_INI_FILEPATH = Some n ->
  (forall mode, n ≠ Dir mode) ->
  can_open_for_writing fs filepath = true ->
  write_default_ini_config filepath fs
  = match <[resolve filepath := File ""]> fs !! resolve TEMPLATE_INI_FILEPATH with
    | Some (Undecodable readable) =>
        (Raise UnicodeDecodeError,
         <[resolve filepath :=
             File (stripped_tail (complete_lines (split_lines readable)))]> fs)
    | _ =>
        (Return tt,
         <[resolve filepath :=
             File (expected_ini
                     (content_of (<[resolve filepath := File ""]> fs)
                        (resolve TEMPLATE_INI_FILEPATH)))]> fs)
    end.
Proof.
  intros Htemplate Hfile Hopen. unfold write_default_ini_config.
  erewrite iobind_Return;
    [|unfold open_r; rewrite Htemplate;
      destruct n as [mode| |]; [by destruct (Hfile mode)|reflexivity..]].
  erewrite iobind_Return; [|by apply open_w_plus_ok].
  erewrite iobind_Return; [|by apply file_read_fresh].
  cbn [fst snd]. rewrite bool_decide_eq_true_2 by done.
  change (negb true) with false. cbv iota.
  change 0 with (String.length "") at 2.
  destruct (<[resolve filepath := File ""]> fs !! resolve TEMPLATE_INI_FILEPATH)
    as [[mode|content|readable]|] eqn:Hnode;
    (erewrite iobind_Return;
     [|unfold file_iter; cbn [h_path h_pos str_drop]; rewrite Hnode;
       reflexivity]);
    cbn [fst snd];
    (erewrite iobind_Return;
     [|apply copy_lines_at_end; apply lookup_insert_eq]);
    unfold ret, raise; rewrite insert_insert_eq; reflexivity.
Qed.

Lemma template_after_open (fs : filesystem) filepath :
  <[resolve filepath := File ""]> fs !! resolve TEMPLATE_INI_FILEPATH
  = if decide (resolve filepath = resolve TEMPLATE_INI_FILEPATH)
    then Some (File "")
    else fs !! resolve TEMPLATE_INI_FILEPATH.
Proof. by rewrite lookup_insert. Qed.

(** A complete run of [write_default_ini_config]. *)
Lemma write_default_ini_config_run (fs : filesystem) filepath content :
  stat fs TEMPLATE_INI_FILEPATH = Some (File content) ->
  can_open_for_writing fs filepath = true ->
  write_default_ini_config filepath fs
  = (Return tt,
     <[resolve filepath :=
         File (expected_ini (template_text filepath content))]> fs).
Proof.
  intros Htemplate Hopen.
  rewrite (write_default_ini_config_opened fs filepath _ Htemplate) by done.
  apply stat_Some in Htemplate as [_ Htemplate].
  unfold content_of, template_text. rewrite template_after_open.
  destruct (decide (resolve filepath = resolve TEMPLATE_INI_FILEPATH));
    [reflexivity|]. by rewrite Htemplate.
Qed.

(** A run on a template that is not all text. *)
Lemma write_default_ini_config_garbled (fs : filesystem) filepath readable :
  stat fs TEMPLATE_INI_FILEPATH = Some (Undecodable readable) ->
  can_open_for_writing fs filepath = true ->
  write_default_ini_config filepath fs
  = if decide (resolve filepath = resolve TEMPLATE_INI_FILEPATH)
    then (Return tt, <[resolve filepath := File ""]> fs)
    else (Raise UnicodeDecodeError,
          <[resolve filepath :=
              File (stripped_tail (complete_lines (split_lines readable)))]> fs).
Proof.
  intros Htemplate Hopen.
  rewrite (write_default_ini_config_opened fs filepath _ Htemplate) by done.
  apply stat_Some in Htemplate as [_ Htemplate].
  unfold content_of. rewrite template_after_open.
  destruct (decide (resolve filepath = resolve TEMPLATE_INI_FILEPATH));
    [reflexivity|]. by rewrite Htemplate.
Qed.

(** The other runs: an operating-system error and an untouched file
    system. *)
Lemma write_default_ini_config_refused (fs : filesystem) filepath :
  (stat fs TEMPLATE_INI_FILEPATH = None
   \/ (exists mode, stat fs TEMPLATE_INI_FILEPATH = Some (Dir mode))
   \/ can_open_for_writing fs filepath = false) ->
  exists e, is_os_error e
            /\ write_default_ini_config filepath fs = (Raise e, fs).
Proof.
  unfold write_default_ini_config.
  destruct (stat fs TEMPLATE_INI_FILEPATH) as [[mode|content|readable]|]
    eqn:Htemplate.
  - intros _. eexists. split; [|apply iobind_Raise; unfold open_r;
                                by rewrite Htemplate]. exact I.
  - intros [Hno | [[mode Hno] | Hopen]]; [discriminate..|].
    destruct (open_w_plus_refused fs filepath Hopen) as (e & He & Hrun).
    exists e. split; [exact He|].
    erewrite iobind_Return; [|unfold open_r; by rewrite Htemplate].
    by apply iobind_Raise.
  - intros [Hno | [[mode Hno] | Hopen]]; [discriminate..|].
    destruct (open_w_plus_refused fs filepath Hopen) as (e & He & Hrun).
    exists e. split; [exact He|].
    erewrite iobind_Return; [|unfold open_r; by rewrite Htemplate].
    by apply iobind_Raise.
  - intros _. eexists. split; [|apply iobind_Raise; unfold open_r;
                                by rewrite Htemplate]. exact I.
Qed.

(** Every run is of one of three kinds: it returns, it fails to open a
    file, or it is stopped by the decoder. *)
Lemma write_default_ini_config_cases (fs : filesystem) filepath :
  (exists text,
     can_open_for_writing fs filepath = true
     /\ write_default_ini_config filepath fs
        = (Return tt, <[resolve filepath := File text]> fs)
     /\ ((exists content,
            stat fs TEMPLATE_INI_FILEPATH = Some (File content)
            /\ text = expected_ini (template_text filepath content))
         \/ (exists readable,
               stat fs TEMPLATE_INI_FILEPATH = Some (Undecodable readable)
               /\ resolve filepath = resolve TEMPLATE_INI_FILEPATH
               /\ text = "")))
  \/ (exists e, is_os_error e
                /\ write_default_ini_config filepath fs = (Raise e, fs))
  \/ (exists readable,
        can_open_for_writing fs filepath = true
        /\ stat fs TEMPLATE_INI_FILEPATH = Some (Undecodable readable)
        /\ resolve filepath ≠ resolve TEMPLATE_INI_FILEPATH
        /\ write_default_ini_config filepath fs
           = (Raise UnicodeDecodeError,
              <[resolve filepath :=
                  File (stripped_tail (complete_lines (split_lines readable)))]>
                fs)).
Proof.
  destruct (can_open_for_writing fs filepath) eqn:Hopen;
    [|right; left; apply write_default_ini_config_refused; by right; right].
  destruct (stat fs TEMPLATE_INI_FILEPATH) as [[mode|content|readable]|]
    eqn:Htemplate.
  - right. left. apply write_default_ini_config_refused. right. left. eauto.
  - left. eexists. split_and!; [done | by apply write_default_ini_config_run|].
    left. eauto.
  - pose proof (write_default_ini_config_garbled fs filepath readable
                  Htemplate Hopen) as Hrun.
    destruct (decide (resolve filepath = resolve TEMPLATE_INI_FILEPATH)).
    + left. exists "". split_and!; [done..|]. right. eauto.
    + right. right. exists readable. done.
  - right. left. apply write_default_ini_config_refused. by left.
Qed.

(** Whatever the end, the run has changed nothing or has made the
    destination a regular file. *)
Lemma write_default_ini_config_shape (fs fs' : filesystem) filepath r :
  write_default_ini_config filepath fs = (r, fs') ->
  fs' = fs
  \/ (can_open_for_writing fs filepath = true
      /\ exists text, fs' = <[resolve filepath := File text]> fs).
Proof.
  destruct (write_default_ini_config_cases fs filepath)
    as [(text & Hopen & -> & _) | [(e & _ & ->)
        | (readable & Hopen & _ & _ & ->)]];
    intros [= <- <-]; eauto.
Qed.

(** C2. Whatever the destination, [write_default_ini_config] does not
    raise its "not a blank file" configuration error: the [read] that
    guards it is made on the handle that ['w+'] has just opened, and that
    read yields the empty string. *)
Theorem write_default_ini_config_guard_dead (fs : filesystem) filepath :
  (forall new_file fs1,
     open_w_plus filepath fs = (Return new_file, fs1) ->
     exists new_file', file_read new_file fs1 = (Return ("", new_file'), fs1))
  /\ (forall msg,
        fst (write_default_ini_config filepath fs)
        ≠ Raise (NucypherConfigurationError msg)).
Proof.
  split.
  - intros new_file fs1 Hopen.
    apply open_w_plus_inv in Hopen as (_ & -> & ->).
    eexists. apply file_read_fresh.
  - intros msg.
    destruct (write_default_ini_config_cases fs filepath)
      as [(text & _ & -> & _) | [(e & He & ->)
          | (readable & _ & _ & _ & ->)]]; simpl.
    + discriminate.
    + intros [= ->]. exact He.
    + discriminate.
Qed.

(** For a destination that is another file than the template, a run that
    returns has left at the destination exactly the template's lines from
    the 13th on, in order, each without its leading semicolons, and the
    rest of the file system as it was. *)
Lemma write_default_ini_config_copies (fs fs' : filesystem) filepath content :
  resolve filepath ≠ resolve TEMPLATE_INI_FILEPATH ->
  stat fs TEMPLATE_INI_FILEPATH = Some (File content) ->
  write_default_ini_config filepath fs = (Return tt, fs') ->
  fs' = <[resolve filepath := File (expected_ini content)]> fs.
Proof.
  intros Hne Htemplate.
  destruct (write_default_ini_config_cases fs filepath)
    as [(text & _ & -> & Htext) | [(e & _ & ->)
        | (readable & _ & _ & _ & ->)]]; [|discriminate..].
  intros [= <-].
  destruct Htext as [(content' & Htemplate' & ->) | (readable & Hr & _)];
    [|congruence].
  rewrite Htemplate in Htemplate'. injection Htemplate' as <-.
  unfold template_text. by rewrite decide_False.
Qed.

(** With the template itself as destination the file is emptied before
    it is read, and stays empty. *)
Lemma write_default_ini_config_onto_template (fs : filesystem) content :
  stat fs TEMPLATE_INI_FILEPATH = Some (File content) ->
  write_default_ini_config TEMPLATE_INI_FILEPATH fs
  = (Return tt, <[resolve TEMPLATE_INI_FILEPATH := File ""]> fs).
Proof.
  intros Htemplate.
  rewrite (write_default_ini_config_run fs _ content Htemplate).
  - unfold template_text. by rewrite decide_True.
  - apply stat_Some in Htemplate as [Hne Htemplate].
    unfold can_open_for_writing. rewrite Htemplate.
    by rewrite bool_decide_eq_false_2.
Qed.

End BootstrapProperties.

(** C8 fails on the code.  With the template as its own destination the
    run returns, although the template holds sixteen lines, and leaves the
    file empty: the lines 13 to 16 are not written, and the template is
    lost.  The "not a blank file" test that stands before the copy could
    not refuse this destination, for it reads the file after ['w+'] has
    emptied it. *)
Theorem write_default_ini_config_template_onto_itself :
  sample_fs !! "/opt/nucypher/cli/.nucypher.ini" = Some (File sample_template)
  /\ (exists fs',
        write_default_ini_config (P := sample_process) (K := sample_constants)
          "/opt/nucypher/cli/.nucypher.ini" sample_fs = (Return tt, fs')
        /\ fs' !! "/opt/nucypher/cli/.nucypher.ini" = Some (File ""))
  /\ expected_ini sample_template = sample_ini
  /\ sample_ini ≠ "".
Proof.
  split_and!.
  - vm_compute. reflexivity.
  - eexists. split.
    + apply (write_default_ini_config_onto_template
               (P := sample_process) (K := sample_constants)
               sample_fs sample_template).
      vm_compute. reflexivity.
    + apply lookup_insert_eq.
  - vm_compute. reflexivity.
  - discriminate.
Qed.

(** *** Directories *)

Section Directories.

Context `{P : process}.

(** The two ends of [os.mkdir]. *)
Lemma os_mkdir_inv (fs fs' : filesystem) path mode r :
  os_mkdir path mode fs = (r, fs') ->
  (r = Return tt /\ path ≠ "" /\ fs !! resolve path = None
   /\ parent_present fs path = true
   /\ fs' = <[resolve path := Dir (N.ldiff mode umask)]> fs)
  \/ (exists e, r = Raise e /\ is_os_error e /\ fs' = fs).
Proof.
  unfold os_mkdir.
  destruct (bool_decide_reflect (path = "")) as [->|Hne].
  { intros [= <- <-]. right. eexists. split_and!; [done | exact I | done]. }
  unfold iobind, os_path_exists, stat.
  rewrite (bool_decide_eq_false_2 (path = "")) by done.
  destruct (fs !! resolve path) as [n|] eqn:Hp.
  - rewrite bool_decide_eq_true_2 by eauto.
    intros [= <- <-]. right. eexists. split_and!; [done | exact I | done].
  - rewrite bool_decide_eq_false_2 by (intros [? ?]; discriminate).
    rewrite check_parent_run.
    destruct (parent_present fs path) eqn:Hpar.
    + intros [= <- <-]. left. done.
    + destruct (fs !! dirname (resolve path));
        intros [= <- <-]; right; eexists;
        (split_and!; [done | exact I | done]).
Qed.

(** What is there stays as it is when a directory is made. *)
Lemma os_mkdir_keeps_node (fs fs' : filesystem) path mode r q n :
  os_mkdir path mode fs = (r, fs') -> fs !! q = Some n -> fs' !! q = Some n.
Proof.
  intros Hrun Hq.
  apply os_mkdir_inv in Hrun
    as [(_ & _ & Hp & _ & ->) | (e & _ & _ & ->)]; [|done].
  rewrite lookup_insert_ne; [done | congruence].
Qed.

Lemma os_mkdir_back_None (fs fs' : filesystem) path mode r q :
  os_mkdir path mode fs = (r, fs') -> fs' !! q = None -> fs !! q = None.
Proof.
  intros Hrun.
  apply os_mkdir_inv in Hrun
    as [(_ & _ & Hp & _ & ->) | (e & _ & _ & ->)]; [|done].
  rewrite lookup_insert. by destruct (decide (resolve path = q)).
Qed.

Lemma os_mkdir_back_File (fs fs' : filesystem) path mode r q c :
  os_mkdir path mode fs = (r, fs') ->
  fs' !! q = Some (File c) -> fs !! q = Some (File c).
Proof.
  intros Hrun.
  apply os_mkdir_inv in Hrun
    as [(_ & _ & Hp & _ & ->) | (e & _ & _ & ->)]; [|done].
  rewrite lookup_insert. by destruct (decide (resolve path = q)).
Qed.

Lemma os_mkdir_returned (fs fs' : filesystem) path mode a :
  os_mkdir path mode fs = (Return a, fs') ->
  path ≠ ""
  /\ fs !! resolve path = None
  /\ fs' !! resolve path = Some (Dir (N.ldiff mode umask)).
Proof.
  intros Hrun.
  apply os_mkdir_inv in Hrun
    as [(_ & Hne & Hp & _ & ->) | (e & [=] & _)].
  split_and!; [done | done | apply lookup_insert_eq].
Qed.

Lemma is_dir_lookup (fs : filesystem) q :
  is_dir fs q = true <-> q ≠ "" /\ exists mode, fs !! resolve q = Some (Dir mode).
Proof.
  unfold is_dir, stat. destruct (bool_decide_reflect (q = "")) as [->|Hne].
  - split; [discriminate | by intros [? _]].
  - destruct (fs !! resolve q) as [[mode|content|readable]|]; split;
      try discriminate; eauto; try (by intros [_ [? [=]]]).
Qed.

(** A directory that is there stays there. *)
Lemma os_mkdir_keeps_dirs q path mode :
  preserves (fun fs => is_dir fs q = true) (os_mkdir path mode).
Proof.
  intros fs r fs' Hq Hrun. apply is_dir_lookup in Hq as [Hne [m Hq]].
  apply is_dir_lookup. split; [done|]. exists m.
  by eapply os_mkdir_keeps_node.
Qed.

Lemma os_mkdir_made (fs fs' : filesystem) path mode a :
  os_mkdir path mode fs = (Return a, fs') -> is_dir fs' path = true.
Proof.
  intros Hrun. apply os_mkdir_returned in Hrun as (Hne & _ & Hmade).
  apply is_dir_lookup. eauto.
Qed.

End Directories.

Ltac io_inv H :=
  let a := fresh "a" in
  let fs0 := fresh "fs" in
  let e := fresh "e" in
  let Hstep := fresh "Hstep" in
  apply iobind_inv in H as [(a & fs0 & Hstep & H) | (e & Hstep & H)];
  [|try discriminate H].

Section InitializeProperties.

Context `{P : process} `{K : constants}.

Lemma write_default_ini_config_keeps_dir (fs fs' : filesystem)
    filepath r q mode :
  write_default_ini_config filepath fs = (r, fs') ->
  fs !! q = Some (Dir mode) -> fs' !! q = Some (Dir mode).
Proof.
  intros Hrun Hq.
  apply write_default_ini_config_shape in Hrun
    as [-> | (Hopen & text & ->)]; [done|].
  rewrite lookup_insert_ne; [done|]. intros <-.
  by apply (can_open_not_dir fs filepath mode).
Qed.

Lemma write_default_ini_config_keeps_dirs q filepath :
  preserves (fun fs => is_dir fs q = true) (write_default_ini_config filepath).
Proof.
  intros fs r fs' Hq Hrun. apply is_dir_lookup in Hq as [Hne [m Hq]].
  apply is_dir_lookup. split; [done|]. exists m.
  by eapply write_default_ini_config_keeps_dir.
Qed.

Lemma or_default_root_truthy (config_root : option string) :
  truthy config_root = true ->
  config_root = Some (or_default_root config_root).
Proof. by destruct config_root as [[|c s]|]. Qed.

Lemma or_default_root_falsy (config_root : option string) :
  truthy config_root = false ->
  or_default_root config_root = DEFAULT_CONFIG_ROOT.
Proof. by destruct config_root as [[|c s]|]. Qed.

(** The value handed back is the argument as it came in. *)
Lemma initialize_configuration_returns_argument
    (fs fs' : filesystem) config_root r :
  initialize_configuration config_root fs = (Return r, fs') ->
  r = config_root.
Proof.
  unfold initialize_configuration. intros H.
  io_inv H. destruct a; [discriminate H|].
  do 9 io_inv H.
  by injection H as <- _.
Qed.

(** The call on an existing root. *)
Lemma initialize_configuration_existing (fs : filesystem) config_root :
  is_dir fs (or_default_root config_root) = true ->
  initialize_configuration config_root fs
  = (Raise (NucypherConfigurationError
              ("There are existing nucypher configuration files at "
               +:+ py_str_opt config_root)),
     fs).
Proof.
  intros Hdir. unfold initialize_configuration.
  erewrite iobind_Return; [|reflexivity]. by rewrite Hdir.
Qed.

(** Once the root was made it is there when the call ends, however it
    ends. *)
Lemma initialize_configuration_keeps_root (fs fs0 fs' : filesystem)
    config_root r :
  os_mkdir (or_default_root config_root) (octal 7 5 5) fs = (Return tt, fs0) ->
  initialize_configuration config_root fs = (r, fs') ->
  is_dir fs' (or_default_root config_root) = true.
Proof.
  intros Hmk. unfold initialize_configuration.
  erewrite iobind_Return; [|reflexivity].
  destruct (is_dir fs (or_default_root config_root)) eqn:Hdir.
  - intros [= <- <-]. exact Hdir.
  - erewrite iobind_Return; [|exact Hmk].
    intros Hrun.
    assert (is_dir fs0 (or_default_root config_root) = true) as Hmade
      by (eapply os_mkdir_made; eauto).
    clear Hmk. revert fs0 r fs' Hmade Hrun.
    change (preserves
              (fun fs => is_dir fs (or_default_root config_root) = true)
              (do! os_mkdir DEFAULT_KEYRING_ROOT (octal 7 0 0) in
               do! os_mkdir DEFAULT_KNOWN_NODE_DIR (octal 7 5 5) in
               do! os_mkdir DEFAULT_KNOWN_CERTIFICATES_DIR (octal 7 5 5) in
               do! os_mkdir DEFAULT_KNOWN_METADATA_DIR (octal 7 5 5) in
               do! os_mkdir DEFAULT_SEED_NODE_DIR (octal 7 5 5) in
               do! os_mkdir DEFAULT_SEED_CERTIFICATES_DIR (octal 7 5 5) in
               do! os_mkdir DEFAULT_SEED_METADATA_DIR (octal 7 5 5) in
               do! write_default_ini_config DEFAULT_INI_FILEPATH in
               ret config_root)%io).
    repeat (apply preserves_bind; [apply os_mkdir_keeps_dirs | intros _]).
    apply preserves_bind; [apply write_default_ini_config_keeps_dirs|].
    intros _. apply preserves_ret.
Qed.

End InitializeProperties.

Lemma str_app_inj_r (a b c : string) : a +:+ c = b +:+ c -> a = b.
Proof.
  revert b. induction a as [|x a IH]; intros [|y b] H.
  - reflexivity.
  - apply (f_equal String.length) in H.
    rewrite str_app_nil_l, str_app_cons in H. simpl in H.
    rewrite str_length_app in H. lia.
  - apply (f_equal String.length) in H.
    rewrite str_app_nil_l, str_app_cons in H. simpl in H.
    rewrite str_length_app in H. lia.
  - rewrite !str_app_cons in H. injection H as -> H. f_equal. by apply IH.
Qed.

Section TreeProperties.

Context `{P : process} `{K : constants}.

Lemma initialize_configuration_made_root (fs fs' : filesystem) config_root r :
  initialize_configuration config_root fs = (Return r, fs') ->
  exists fs0,
    os_mkdir (or_default_root config_root) (octal 7 5 5) fs = (Return tt, fs0).
Proof.
  unfold initialize_configuration. intros H.
  io_inv H. destruct a; [discriminate H|].
  injection Hstep as _ <-.
  io_inv H. destruct a. eauto.
Qed.

(** C9. On a root (the one passed in, or the default one) that is a
    directory already, [initialize_configuration] raises the configuration
    error and leaves the file system as it found it: no directory and no
    ini file is made.  Hence a second call on the same root raises the
    configuration error, after a first call that returned and, more
    generally, after any first call that got to make the root. *)
Theorem initialize_configuration_twice (fs : filesystem) config_root :
  (is_dir fs (or_default_root config_root) = true ->
   initialize_configuration config_root fs
   = (Raise (NucypherConfigurationError
               ("There are existing nucypher configuration files at "
                +:+ py_str_opt config_root)),
      fs))
  /\ (forall r fs1,
        initialize_configuration config_root fs = (Return r, fs1) ->
        initialize_configuration config_root fs1
        = (Raise (NucypherConfigurationError
                    ("There are existing nucypher configuration files at "
                     +:+ py_str_opt config_root)),
           fs1))
  /\ (forall fs0 r fs1,
        os_mkdir (or_default_root config_root) (octal 7 5 5) fs
        = (Return tt, fs0) ->
        initialize_configuration config_root fs = (r, fs1) ->
        initialize_configuration config_root fs1
        = (Raise (NucypherConfigurationError
                    ("There are existing nucypher configuration files at "
                     +:+ py_str_opt config_root)),
           fs1)).
Proof.
  split_and!.
  - apply initialize_configuration_existing.
  - intros r fs1 Hfirst.
    destruct (initialize_configuration_made_root _ _ _ _ Hfirst) as [fs0 Hmk].
    apply initialize_configuration_existing.
    eapply initialize_configuration_keeps_root; eauto.
  - intros fs0 r fs1 Hmk Hfirst.
    apply initialize_configuration_existing.
    eapply initialize_configuration_keeps_root; eauto.
Qed.

(** C10. Called without a path, both functions put the text [None] where
    the path belongs in the message of the configuration error, although
    the path they examined is the default root. *)
Theorem error_messages_show_None (fs : filesystem) :
  (is_dir fs DEFAULT_CONFIG_ROOT = true ->
   initialize_configuration None fs
   = (Raise (NucypherConfigurationError
               "There are existing nucypher configuration files at None"),
      fs))
  /\ (stat fs DEFAULT_CONFIG_ROOT = None ->
      check_config_tree None fs
      = (Raise (NucypherConfigurationError
                  "No Nucypher configuration directory found at None."),
         fs))
  /\ (DEFAULT_CONFIG_ROOT ≠ "None" ->
      "There are existing nucypher configuration files at None"
      ≠ "There are existing nucypher configuration files at "
        +:+ DEFAULT_CONFIG_ROOT
      /\ "No Nucypher configuration directory found at None."
         ≠ "No Nucypher configuration directory found at "
           +:+ DEFAULT_CONFIG_ROOT +:+ ".").
Proof.
  split_and!.
  - intros Hdir.
    by rewrite (initialize_configuration_existing fs None Hdir).
  - intros Hnone. unfold check_config_tree, or_default_root.
    erewrite iobind_Return; [|reflexivity].
    rewrite Hnone.
    rewrite bool_decide_eq_false_2 by (intros [? ?]; discriminate).
    reflexivity.
  - intros Hne. split; intros Heq; apply Hne; symmetry.
    + by apply (String.app_inj
                  "There are existing nucypher configuration files at ").
    + apply (str_app_inj_r _ _ ".").
      by apply (String.app_inj
                  "No Nucypher configuration directory found at ").
Qed.

(** The tree check on a path that exists, and on one that does not. *)
Lemma check_config_tree_spec (fs : filesystem) configuration_dir :
  (is_Some (stat fs (or_default_root configuration_dir)) ->
   check_config_tree configuration_dir fs = (Return true, fs))
  /\ (stat fs (or_default_root configuration_dir) = None ->
      check_config_tree configuration_dir fs
      = (Raise (NucypherConfigurationError
                  ("No Nucypher configuration directory found at "
                   +:+ py_str_opt configuration_dir +:+ ".")),
         fs)).
Proof.
  unfold check_config_tree. split; intros Hp.
  - erewrite iobind_Return; [|reflexivity].
    by rewrite bool_decide_eq_true_2.
  - erewrite iobind_Return; [|reflexivity].
    rewrite Hp.
    by rewrite bool_decide_eq_false_2 by (intros [? ?]; discriminate).
Qed.

End TreeProperties.

Lemma initialize_configuration_twice_witness :
  initialize_configuration (P := sample_process) (K := sample_constants)
    None sample_fs_configured
  = (Raise (NucypherConfigurationError
              "There are existing nucypher configuration files at None"),
     sample_fs_configured).
Proof.
  apply (initialize_configuration_twice (P := sample_process)
           (K := sample_constants) sample_fs_configured None).
  vm_compute. reflexivity.
Defined.

Lemma error_messages_show_None_witness :
  initialize_configuration (P := sample_process) (K := sample_constants)
    None sample_fs_configured
  = (Raise (NucypherConfigurationError
              "There are existing nucypher configuration files at None"),
     sample_fs_configured)
  /\ check_config_tree (P := sample_process) (K := sample_constants)
       None sample_fs
     = (Raise (NucypherConfigurationError
                 "No Nucypher configuration directory found at None."),
        sample_fs).
Proof.
  split.
  - apply (error_messages_show_None (P := sample_process)
             (K := sample_constants) sample_fs_configured).
    vm_compute. reflexivity.
  - apply (error_messages_show_None (P := sample_process)
             (K := sample_constants) sample_fs).
    vm_compute. reflexivity.
Defined.

(** C1 fails on the code.  On a machine without a configuration root the
    call without an argument makes the default root and the ini file and
    returns normally, and the value it returns is [None], not the default
    root. *)
Theorem initialize_configuration_default_returns_None :
  is_dir (P := sample_process) sample_fs
    (DEFAULT_CONFIG_ROOT (constants := sample_constants)) = false
  /\ exists fs',
       initialize_configuration (P := sample_process) (K := sample_constants)
         None sample_fs
       = (Return None, fs')
       /\ is_dir (P := sample_process) fs'
            (DEFAULT_CONFIG_ROOT (constants := sample_constants)) = true
       /\ fs' !! DEFAULT_INI_FILEPATH (constants := sample_constants)
          = Some (File sample_ini).
Proof.
  split; [vm_compute; reflexivity|].
  eexists. split_and!.
  - vm_compute. reflexivity.
  - vm_compute. reflexivity.
  - vm_compute. reflexivity.
Qed.

(** ** Further properties *)

(** With a root that is passed in and not empty, the value returned is the
    root that was used. *)
Lemma initialize_configuration_returns_given_root `{P : process}
    `{K : constants} (fs fs' : filesystem) config_root r :
  truthy config_root = true ->
  initialize_configuration config_root fs = (Return r, fs') ->
  r = Some (or_default_root config_root).
Proof.
  intros Htruthy Hrun.
  rewrite (initialize_configuration_returns_argument _ _ _ _ Hrun).
  by apply or_default_root_truthy.
Qed.

(** The runtime guard lets everyone through on Windows and everyone but
    user 0 elsewhere; its failure is a plain [Exception]. *)
Lemma check_config_runtime_spec (os_name : string) (getuid : nat) :
  check_config_runtime os_name getuid
  = if bool_decide (os_name = "nt") || negb (bool_decide (getuid = 0))
    then Return true
    else Raise (Exception "Cannot run as root user.").
Proof.
  unfold check_config_runtime. simpl.
  by destruct (bool_decide (os_name = "nt") || negb (bool_decide (getuid = 0))).
Qed.

(** ** The validator as a whole *)

Section ValidatorCases.

Variable read_ini : string -> outcome ConfigParser.

(** X1. Whenever a result is returned, the flag in it is [True] exactly
    when nothing is missing, the missing names are ['mode'] and
    ['blockchain'] in that order and no others, and ['nucypher'] is never
    among them although it is a required section. *)
Theorem validate_result_shape config filepath raise_on_failure ok missing :
  validate_nucypher_ini_config read_ini config filepath raise_on_failure
  = Return (ok, missing) ->
  (ok = true <-> missing = [])
  /\ (missing = [] \/ missing = ["mode"] \/ missing = ["blockchain"]
      \/ missing = ["mode"; "blockchain"])
  /\ "nucypher" ∉ missing.
Proof.
  destruct (load_config read_ini config filepath) as [doc|e] eqn:Hload;
    [|by rewrite (validate_unloaded _ _ _ _ e Hload)].
  rewrite (validate_loaded _ _ _ doc _ Hload). unfold validation_of.
  repeat match goal with
         | |- context [bool_decide ?P] => destruct (bool_decide P)
         | |- context [configured_mode doc] => destruct (configured_mode doc)
         | |- context [before_get doc ?s ?k ?v] => destruct (before_get doc s k v)
         | |- context [if raise_on_failure then _ else _] =>
             destruct raise_on_failure
         end;
    intros [= <- <-];
    (split_and!;
     [ split; discriminate || reflexivity
     | eauto 6
     | rewrite ?not_elem_of_cons; split_and?;
       (apply not_elem_of_nil || discriminate) ]).
Qed.

(** X2. The two settings of [raise_on_failure] agree on success and
    failure: the strict call returns nothing but [(True, ())], it does so
    exactly when the lenient call does, a lenient [(False, ...)] is a
    strict configuration error, and an error of the lenient call is the same
    error of the strict call. *)
Theorem validate_strict_and_lenient config filepath :
  (forall result,
     validate_nucypher_ini_config read_ini config filepath true = Return result ->
     result = (true, []))
  /\ (validate_nucypher_ini_config read_ini config filepath true
      = Return (true, [])
      <-> validate_nucypher_ini_config read_ini config filepath false
          = Return (true, []))
  /\ (forall missing,
        validate_nucypher_ini_config read_ini config filepath false
        = Return (false, missing) ->
        exists msg,
          validate_nucypher_ini_config read_ini config filepath true
          = Raise (NucypherConfigurationError msg))
  /\ (forall e,
        validate_nucypher_ini_config read_ini config filepath false = Raise e ->
        validate_nucypher_ini_config read_ini config filepath true = Raise e).
Proof.
  destruct (load_config read_ini config filepath) as [doc|e] eqn:Hload.
  - rewrite !(validate_loaded _ _ _ doc _ Hload). unfold validation_of.
    repeat match goal with
           | |- context [bool_decide ?P] => destruct (bool_decide P)
           | |- context [configured_mode doc] => destruct (configured_mode doc)
           | |- context [before_get doc ?s ?k ?v] =>
               destruct (before_get doc s k v)
           end;
      (split_and!;
       [ intros result; by intros [= <-] || discriminate
       | split; by intros [= ] || done
       | intros missing; discriminate || (intros _; eauto)
       | intros e'; discriminate || done ]).
  - rewrite !(validate_unloaded _ _ _ _ e Hload).
    split_and!; [discriminate | split; discriminate | discriminate | done].
Qed.

(** X3. On a document that is passed in, an exception is either the
    configuration error, with one of four messages, or the error the parser
    raises while it interpolates the mode; the lenient call raises only the
    first two messages or the parser's error, the [KeyError] of the lookup
    never gets out, and no message names a missing [nucypher] section. *)
Theorem validate_errors config filepath raise_on_failure e :
  validate_nucypher_ini_config read_ini (Some config) filepath raise_on_failure
  = Raise e ->
  e = NucypherConfigurationError "Empty configuration file"
  \/ e = NucypherConfigurationError "No operating mode configured"
  \/ (is_interpolation_error e
      /\ exists raw,
           configured_mode config = Some raw
           /\ before_get config "nucypher" "mode" raw = Raise e)
  \/ (raise_on_failure = true
      /\ ((exists raw v,
             configured_mode config = Some raw
             /\ before_get config "nucypher" "mode" raw = Return v
             /\ (v ∉ modes)
             /\ e = NucypherConfigurationError
                      ("Invalid nucypher operating mode '" +:+ v
                       +:+ "'. Specify ('federated', 'testing', 'decentralized', 'centralized')"))
          \/ e = NucypherConfigurationError
                   "Invalid config file: missing section 'blockchain'")).
Proof.
  rewrite (validate_loaded read_ini (Some config) filepath config _ eq_refl).
  unfold validation_of.
  destruct (bool_decide (sections config = [])); [intros [= <-]; by left|].
  destruct (configured_mode config) as [raw|]; [|intros [= <-]; right; by left].
  destruct (before_get config "nucypher" "mode" raw) as [v|e'] eqn:Hget.
  - destruct (bool_decide_reflect (v ∈ modes)) as [Hv|Hv];
      destruct (bool_decide ("blockchain" ∈ sections config));
      destruct raise_on_failure; try discriminate; intros [= <-];
      right; right; right; (split; [reflexivity|]); eauto 8.
  - intros [= <-]. right. right. left.
    split; [by eapply before_get_raises | eauto].
Qed.

End ValidatorCases.

Lemma validate_result_shape_witness :
  (false = true <-> ["mode"] = ([] : list string))
  /\ "nucypher" ∉ ["mode"].
Proof.
  pose proof (validate_result_shape no_file (Some doc_bad_mode) "nucypher.ini"
                false false ["mode"] eq_refl) as (Hok & _ & Hnot).
  split; [exact Hok | exact Hnot].
Defined.

Lemma validate_errors_witness :
  is_interpolation_error
    (InterpolationMissingOptionError "mode" "nucypher" "%(nope)s" "nope").
Proof.
  destruct (validate_errors no_file doc_unresolved_mode "nucypher.ini" false
              (InterpolationMissingOptionError "mode" "nucypher" "%(nope)s" "nope")
              eq_refl)
    as [Hempty | [Hnone | [[Hie _] | [Hstrict _]]]];
    [discriminate | discriminate | exact Hie | discriminate].
Defined.

(** ** The ini file that is written *)

Lemma lstrip_line (body : string) :
  lstrip ";" (body +:+ nl) = lstrip ";" body +:+ nl.
Proof.
  induction body as [|c body IH]; [reflexivity|].
  rewrite str_app_cons. simpl.
  destruct (bool_decide (c = ";"%char)); simpl; [exact IH | reflexivity].
Qed.

Lemma lstrip_keeps_no_LF (s : string) :
  char_in LF s = false -> char_in LF (lstrip ";" s) = false.
Proof.
  induction s as [|c s IH]; [done|]. intros Hs. simpl.
  destruct (bool_decide (c = ";"%char)); simpl; [|exact Hs].
  apply IH. simpl in Hs. by apply orb_false_iff in Hs as [_ Hs].
Qed.

Lemma lstrip_no_semicolon (s : string) :
  starts_with_semicolon (lstrip ";" s) = false.
Proof.
  induction s as [|c s IH]; [reflexivity|]. simpl.
  destruct (bool_decide (c = ";"%char)) eqn:Hc; simpl; [exact IH | exact Hc].
Qed.

(** A text without line break is its own only line. *)
Lemma split_lines_no_LF (s : string) :
  char_in LF s = false ->
  split_lines s = match s with EmptyString => [] | _ => [s] end.
Proof.
  induction s as [|c s IH]; [reflexivity|]. intros Hs. simpl in Hs.
  apply orb_false_iff in Hs as [Hc Hs]. apply bool_decide_eq_false in Hc.
  simpl. rewrite decide_False by congruence.
  rewrite (IH Hs). by destruct s.
Qed.

(** A complete line in front of a text is the first line of the whole. *)
Lemma split_lines_complete (body rest : string) :
  char_in LF body = false ->
  split_lines ((body +:+ nl) +:+ rest) = (body +:+ nl) :: split_lines rest.
Proof.
  induction body as [|c body IH]; intros Hb.
  - reflexivity.
  - simpl in Hb. apply orb_false_iff in Hb as [Hc Hb].
    apply bool_decide_eq_false in Hc.
    rewrite !str_app_cons. simpl. rewrite decide_False by congruence.
    by rewrite (IH Hb).
Qed.

Lemma split_lines_ok (s : string) : lines_ok (split_lines s).
Proof.
  induction s as [|c s IH]; simpl; [constructor|].
  destruct (decide (c = LF)) as [->|Hc].
  - by apply (lines_ok_cons "").
  - assert (char_in LF (String c "") = false) as Hone
      by (simpl; by rewrite bool_decide_eq_false_2 by congruence).
    destruct (split_lines s) as [|l ls]; [by constructor|].
    inversion IH as [|l' Hne Hl|body ls' Hbody Hls]; subst.
    + constructor; [done|]. simpl.
      by rewrite bool_decide_eq_false_2 by congruence.
    + rewrite <- str_app_cons. constructor; [|done]. simpl.
      by rewrite bool_decide_eq_false_2 by congruence.
Qed.

Lemma lines_ok_drop (n : nat) (ls : list string) :
  lines_ok ls -> lines_ok (drop n ls).
Proof.
  intros Hls. revert n. induction Hls as [|l Hne Hl|body ls Hbody Hls IH];
    intros [|n]; simpl; try by constructor.
  - rewrite drop_nil. constructor.
  - apply IH.
Qed.

(** The lines of the stripped text do not start with a semicolon. *)
Lemma stripped_lines_no_semicolon (ls : list string) :
  lines_ok ls ->
  Forall (fun l => starts_with_semicolon l = false)
    (split_lines (str_concat (map (lstrip ";") ls))).
Proof.
  induction 1 as [|l Hne Hl|body ls Hbody Hls IH]; simpl.
  - constructor.
  - rewrite str_app_nil_r.
    rewrite (split_lines_no_LF _ (lstrip_keeps_no_LF l Hl)).
    pose proof (lstrip_no_semicolon l) as Hstart.
    destruct (lstrip ";" l); constructor; [done | constructor].
  - rewrite lstrip_line.
    rewrite (split_lines_complete _ _ (lstrip_keeps_no_LF body Hbody)).
    constructor; [|exact IH].
    pose proof (lstrip_no_semicolon body) as Hstart.
    destruct (lstrip ";" body); [reflexivity | exact Hstart].
Qed.

Lemma expected_ini_no_semicolon (content : string) :
  Forall (fun l => starts_with_semicolon l = false)
    (split_lines (expected_ini content)).
Proof.
  unfold expected_ini. apply stripped_lines_no_semicolon.
  apply lines_ok_drop, split_lines_ok.
Qed.


Section IniFileProperties.

Context `{P : process} `{K : constants}.

(** A run that returns, told from its end. *)
Lemma write_default_ini_config_returned (fs fs' : filesystem) filepath r :
  write_default_ini_config filepath fs = (Return r, fs') ->
  exists text,
    can_open_for_writing fs filepath = true
    /\ fs' = <[resolve filepath := File text]> fs
    /\ ((exists content,
           stat fs TEMPLATE_INI_FILEPATH = Some (File content)
           /\ text = expected_ini (template_text filepath content))
        \/ (resolve filepath = resolve TEMPLATE_INI_FILEPATH /\ text = "")).
Proof.
  destruct (write_default_ini_config_cases fs filepath)
    as [(text & Hopen & -> & Htext) | [(e & _ & ->)
        | (readable & _ & _ & _ & ->)]]; [|discriminate..].
  intros [= <-]. exists text. split_and!; [done..|].
  destruct Htext as [? | (readable & _ & ? & ?)]; eauto.
Qed.

(** X4. Whatever its end, a run of [write_default_ini_config] touches no
    file but the destination.  A run that fails to open the template or the
    destination has changed nothing.  A run that the decoder stops while
    the template is read has replaced the destination by then: what the
    destination held is gone, and it holds the stripped lines that were
    read before the exception. *)
Theorem write_default_ini_config_frame (fs : filesystem) filepath :
  (forall r fs' q,
     write_default_ini_config filepath fs = (r, fs') ->
     q ≠ resolve filepath -> fs' !! q = fs !! q)
  /\ (forall e fs',
        write_default_ini_config filepath fs = (Raise e, fs') ->
        is_os_error e -> fs' = fs)
  /\ (forall fs',
        write_default_ini_config filepath fs = (Raise UnicodeDecodeError, fs') ->
        exists readable,
          stat fs TEMPLATE_INI_FILEPATH = Some (Undecodable readable)
          /\ stat fs' filepath
             = Some (File (stripped_tail
                             (complete_lines (split_lines readable))))).
Proof.
  split_and!.
  - intros r fs' q Hrun Hq.
    apply write_default_ini_config_shape in Hrun
      as [-> | (_ & text & ->)]; [done|].
    by rewrite lookup_insert_ne.
  - intros e fs'.
    destruct (write_default_ini_config_cases fs filepath)
      as [(text & _ & -> & _) | [(e0 & _ & ->)
          | (readable & _ & _ & _ & ->)]]; [discriminate | |].
    + by intros [= <- <-].
    + intros [= ? ?]; subst. intros [].
  - intros fs'.
    destruct (write_default_ini_config_cases fs filepath)
      as [(text & _ & -> & _) | [(e0 & He0 & ->)
          | (readable & Hopen & Htemplate & _ & ->)]]; [discriminate | |].
    + intros [= ? ?]; subst. destruct He0.
    + intros [= <-]. exists readable. split; [done|].
      apply stat_Some. split; [by eapply can_open_named|].
      apply lookup_insert_eq.
Qed.

(** X5. A destination that is a regular file already is overwritten
    without complaint: whatever it held, it holds the stripped template
    afterwards. *)
Theorem write_default_ini_config_overwrites (fs : filesystem)
    filepath content old :
  resolve filepath ≠ resolve TEMPLATE_INI_FILEPATH ->
  stat fs TEMPLATE_INI_FILEPATH = Some (File content) ->
  stat fs filepath = Some (File old) ->
  write_default_ini_config filepath fs
  = (Return tt, <[resolve filepath := File (expected_ini content)]> fs).
Proof.
  intros Hne Htemplate Hold.
  rewrite (write_default_ini_config_run fs filepath content Htemplate).
  - unfold template_text. by rewrite decide_False.
  - apply stat_Some in Hold as [Hnamed Hold].
    unfold can_open_for_writing. rewrite Hold.
    by rewrite bool_decide_eq_false_2.
Qed.

(** X6. Writing the default ini file a second time changes nothing: the
    second run returns and leaves the file system of the first. *)
Theorem write_default_ini_config_idempotent (fs fs1 : filesystem) filepath :
  resolve filepath ≠ resolve TEMPLATE_INI_FILEPATH ->
  write_default_ini_config filepath fs = (Return tt, fs1) ->
  write_default_ini_config filepath fs1 = (Return tt, fs1).
Proof.
  intros Hne Hfirst.
  apply write_default_ini_config_returned in Hfirst
    as (text & Hopen & -> & [(content & Htemplate & ->) | [Heq _]]);
    [|done].
  pose proof (can_open_named _ _ Hopen) as Hnamed.
  apply stat_Some in Htemplate as [Htnamed Htemplate].
  rewrite (write_default_ini_config_run _ filepath content).
  - by rewrite insert_insert_eq.
  - apply stat_Some. split; [done|]. by rewrite lookup_insert_ne.
  - unfold can_open_for_writing. rewrite lookup_insert_eq.
    by rewrite bool_decide_eq_false_2.
Qed.

(** X7. After a run that returns, the destination is a regular file none
    of whose lines starts with a semicolon. *)
Theorem write_default_ini_config_uncomments (fs fs' : filesystem) filepath r :
  write_default_ini_config filepath fs = (Return r, fs') ->
  exists text,
    stat fs' filepath = Some (File text)
    /\ Forall (fun l => starts_with_semicolon l = false) (split_lines text).
Proof.
  intros Hrun.
  apply write_default_ini_config_returned in Hrun
    as (text & Hopen & -> & Htext).
  exists text. split.
  - apply stat_Some. split; [by eapply can_open_named|].
    apply lookup_insert_eq.
  - destruct Htext as [(content & _ & ->) | [_ ->]].
    + apply expected_ini_no_semicolon.
    + constructor.
Qed.

End IniFileProperties.

Lemma write_default_ini_config_frame_witness :
  stat (P := sample_process)
    (snd (write_default_ini_config (P := sample_process)
            (K := sample_constants)
            "/home/u/.local/share/nucypher/nucypher.ini" sample_fs_garbled))
    "/home/u/.local/share/nucypher/nucypher.ini"
  = Some (File ("[nucypher]" +:+ nl +:+ "mode = federated" +:+ nl)).
Proof.
  destruct (proj2 (proj2 (write_default_ini_config_frame
                            (P := sample_process) (K := sample_constants)
                            sample_fs_garbled
                            "/home/u/.local/share/nucypher/nucypher.ini"))
              (snd (write_default_ini_config (P := sample_process)
                      (K := sample_constants)
                      "/home/u/.local/share/nucypher/nucypher.ini"
                      sample_fs_garbled)))
    as (readable & Htemplate & Hdest).
  - vm_compute. reflexivity.
  - vm_compute in Htemplate. injection Htemplate as <-.
    rewrite Hdest. vm_compute. reflexivity.
Defined.

Lemma write_default_ini_config_overwrites_witness :
  write_default_ini_config (P := sample_process) (K := sample_constants)
    "/home/u/.local/share/nucypher/nucypher.ini"
    (<["/home/u/.local/share/nucypher/nucypher.ini" := File "[old]"]>
       sample_fs_configured)
  = (Return tt,
     <["/home/u/.local/share/nucypher/nucypher.ini" := File sample_ini]>
       (<["/home/u/.local/share/nucypher/nucypher.ini" := File "[old]"]>
          sample_fs_configured)).
Proof.
  apply (write_default_ini_config_overwrites (P := sample_process)
           (K := sample_constants)
           _ "/home/u/.local/share/nucypher/nucypher.ini" sample_template "[old]").
  - discriminate.
  - vm_compute. reflexivity.
  - vm_compute. reflexivity.
Defined.

Lemma write_default_ini_config_idempotent_witness :
  write_default_ini_config (P := sample_process) (K := sample_constants)
    "/home/u/.local/share/nucypher/nucypher.ini"
    (<["/home/u/.local/share/nucypher/nucypher.ini" := File sample_ini]>
       sample_fs_configured)
  = (Return tt,
     <["/home/u/.local/share/nucypher/nucypher.ini" := File sample_ini]>
       sample_fs_configured).
Proof.
  apply (write_default_ini_config_idempotent (P := sample_process)
           (K := sample_constants) sample_fs_configured).
  - discriminate.
  - rewrite (write_default_ini_config_run (P := sample_process)
               (K := sample_constants)
               sample_fs_configured _ sample_template);
      vm_compute; reflexivity.
Defined.

Lemma write_default_ini_config_uncomments_witness :
  exists text,
    stat (P := sample_process)
      (<["/home/u/.local/share/nucypher/nucypher.ini" := File sample_ini]>
         sample_fs_configured)
      "/home/u/.local/share/nucypher/nucypher.ini"
    = Some (File text)
    /\ Forall (fun l => starts_with_semicolon l = false) (split_lines text).
Proof.
  apply (write_default_ini_config_uncomments (P := sample_process)
           (K := sample_constants) sample_fs_configured _
           "/home/u/.local/share/nucypher/nucypher.ini" tt).
  rewrite (write_default_ini_config_run (P := sample_process)
             (K := sample_constants)
             sample_fs_configured _ sample_template);
    vm_compute; reflexivity.
Defined.

(** ** The tree that is made *)

(** *** Composing what computations keep *)

Lemma touches_only_ret {A : Type} names (a : A) : touches_only names (ret a).
Proof. by intros fs r fs' q [= <- <-]. Qed.

Lemma touches_only_raise {A : Type} names e : touches_only names (@raise A e).
Proof. by intros fs r fs' q [= <- <-]. Qed.

Lemma touches_only_bind {A B : Type} names (m : io A) (k : A -> io B) :
  touches_only names m -> (forall a, touches_only names (k a)) ->
  touches_only names (iobind m k).
Proof.
  intros Hm Hk fs r fs' q Hrun Hq.
  apply iobind_inv in Hrun as [(a & fs0 & Hma & Hka) | (e & Hme & _)].
  - rewrite (Hk a _ _ _ _ Hka Hq). by apply (Hm _ _ _ _ Hma).
  - by apply (Hm _ _ _ _ Hme).
Qed.

Lemma same_effect_bind {A B C : Type} (m : io A) (k1 : A -> io B)
    (k2 : A -> io C) fs :
  (forall a fs0, same_effect (k1 a fs0) (k2 a fs0)) ->
  same_effect (iobind m k1 fs) (iobind m k2 fs).
Proof.
  intros Hk. unfold iobind. destruct (m fs) as [[a|e] fs0]; [apply Hk|].
  by split.
Qed.

(** Clearing the bits of any umask in [0o700] leaves nothing to group and
    others. *)
Lemma keyring_mode_private (mask : N) :
  N.land (N.ldiff (octal 7 0 0) mask) group_other_bits = 0%N.
Proof.
  apply N.bits_inj_0. intros n.
  rewrite N.land_spec, N.ldiff_spec.
  assert (N.testbit (octal 7 0 0) n && N.testbit group_other_bits n = false)
    as Hdisjoint.
  { rewrite <- N.land_spec.
    change (N.land (octal 7 0 0) group_other_bits) with 0%N.
    apply N.bits_0. }
  destruct (N.testbit (octal 7 0 0) n), (N.testbit group_other_bits n),
    (N.testbit mask n); done.
Qed.

Section TreeMade.

Context `{P : process} `{K : constants}.

Lemma os_path_isdir_touches names path :
  touches_only names (os_path_isdir path).
Proof. by intros fs r fs' q [= <- <-]. Qed.

Lemma os_path_isdir_keeps (Q : filesystem -> Prop) path :
  preserves Q (os_path_isdir path).
Proof. by intros fs r fs' HQ [= <- <-]. Qed.

Lemma os_mkdir_touches names path mode :
  resolve path ∈ names -> touches_only names (os_mkdir path mode).
Proof.
  intros Hin fs r fs' q Hrun Hq.
  apply os_mkdir_inv in Hrun
    as [(_ & _ & _ & _ & ->) | (e & _ & _ & ->)]; [|done].
  rewrite lookup_insert_ne; [done | intros Heq; apply Hq; by rewrite <- Heq].
Qed.

Lemma os_mkdir_raises (fs fs' : filesystem) path mode e :
  os_mkdir path mode fs = (Raise e, fs') -> is_os_error e /\ fs' = fs.
Proof.
  intros Hrun.
  by apply os_mkdir_inv in Hrun as [([=] & _) | (? & [= <-] & ? & ->)].
Qed.

Lemma os_mkdir_keeps (q : string) (n : node) path mode :
  preserves (fun fs => fs !! q = Some n) (os_mkdir path mode).
Proof. intros fs r fs' Hq Hrun. by eapply os_mkdir_keeps_node. Qed.

Lemma os_mkdir_keeps_entries (q : string) path mode :
  preserves (fun fs => is_Some (fs !! q)) (os_mkdir path mode).
Proof.
  intros fs r fs' [n Hq] Hrun. exists n. by eapply os_mkdir_keeps_node.
Qed.

Lemma write_default_ini_config_touches names filepath :
  resolve filepath ∈ names ->
  touches_only names (write_default_ini_config filepath).
Proof.
  intros Hin fs r fs' q Hrun Hq.
  apply write_default_ini_config_shape in Hrun
    as [-> | (_ & text & ->)]; [done|].
  rewrite lookup_insert_ne; [done | intros Heq; apply Hq; by rewrite <- Heq].
Qed.

(** The "not a blank file" error is never the end of a run. *)
Lemma write_default_ini_config_raises (fs fs' : filesystem) filepath e :
  write_default_ini_config filepath fs = (Raise e, fs') ->
  forall msg, e ≠ NucypherConfigurationError msg.
Proof.
  destruct (write_default_ini_config_cases fs filepath)
    as [(text & _ & -> & _) | [(e0 & He & ->)
        | (readable & _ & _ & _ & ->)]]; intros [= <- <-] msg.
  - by intros ->.
  - discriminate.
Qed.

Lemma write_default_ini_config_keeps (q : string) (mode : N) filepath :
  preserves (fun fs => fs !! q = Some (Dir mode))
    (write_default_ini_config filepath).
Proof. intros fs r fs' Hq Hrun. by eapply write_default_ini_config_keeps_dir. Qed.

Lemma write_default_ini_config_keeps_entries (q : string) filepath :
  preserves (fun fs => is_Some (fs !! q)) (write_default_ini_config filepath).
Proof.
  intros fs r fs' Hq Hrun.
  apply write_default_ini_config_shape in Hrun
    as [-> | (_ & text & ->)]; [done|].
  rewrite lookup_insert. destruct (decide (resolve filepath = q)); eauto.
Qed.

End TreeMade.

(** Carry a fact about one file forward, or backward, along the steps of a
    run that was taken apart. *)
Ltac carry_forward H :=
  repeat match type of H with
         | ?a !! _ = Some _ =>
             match goal with
             | Hs : os_mkdir _ _ a = (_, _) |- _ =>
                 apply (os_mkdir_keeps_node _ _ _ _ _ _ _ Hs) in H
             | Hs : write_default_ini_config _ a = (_, _) |- _ =>
                 apply (write_default_ini_config_keeps_dir _ _ _ _ _ _ Hs) in H
             end
         end.

Ltac carry_back H :=
  repeat match type of H with
         | ?b !! _ = None =>
             match goal with
             | Hs : os_mkdir _ _ _ = (_, b) |- _ =>
                 apply (os_mkdir_back_None _ _ _ _ _ _ Hs) in H
             end
         | ?b !! _ = Some (File _) =>
             match goal with
             | Hs : os_mkdir _ _ _ = (_, b) |- _ =>
                 apply (os_mkdir_back_File _ _ _ _ _ _ _ Hs) in H
             end
         end.

(** A run of [initialize_configuration] that returns, taken apart into its
    steps. *)
Ltac tree_steps H :=
  unfold initialize_configuration in H;
  io_inv H;
  match goal with
  | Hd : os_path_isdir _ _ = (Return ?d, _) |- _ =>
      destruct d; [discriminate H|];
      unfold os_path_isdir in Hd; injection Hd as Hd <-
  end;
  do 9 io_inv H;
  unfold ret in H; injection H as H <-.

Section TreeTheorems.

Context `{P : process} `{K : constants}.

(** X8. When [initialize_configuration] returns, the root and the seven
    default directories are directories whose permission bits are the ones
    asked for, [0o700] for the keyring and [0o755] for the others, less the
    bits of the umask; whatever the umask, the keyring is closed to group
    and others.  The default ini file is a regular file and, when it is
    another file than the template, holds the template's lines from the
    13th on without their leading semicolons. *)
Theorem initialize_configuration_tree (fs fs' : filesystem) config_root r :
  initialize_configuration config_root fs = (Return r, fs') ->
  stat fs' (or_default_root config_root)
  = Some (Dir (N.ldiff (octal 7 5 5) umask))
  /\ stat fs' DEFAULT_KEYRING_ROOT = Some (Dir (N.ldiff (octal 7 0 0) umask))
  /\ N.land (N.ldiff (octal 7 0 0) umask) group_other_bits = 0%N
  /\ Forall (fun path =>
               stat fs' path = Some (Dir (N.ldiff (octal 7 5 5) umask)))
       [ DEFAULT_KNOWN_NODE_DIR; DEFAULT_KNOWN_CERTIFICATES_DIR;
         DEFAULT_KNOWN_METADATA_DIR; DEFAULT_SEED_NODE_DIR;
         DEFAULT_SEED_CERTIFICATES_DIR; DEFAULT_SEED_METADATA_DIR ]
  /\ exists text,
       stat fs' DEFAULT_INI_FILEPATH = Some (File text)
       /\ (resolve DEFAULT_INI_FILEPATH ≠ resolve TEMPLATE_INI_FILEPATH ->
           exists content,
             stat fs TEMPLATE_INI_FILEPATH = Some (File content)
             /\ text = expected_ini content).
Proof.
  intros H. tree_steps H.
  repeat match goal with
         | Hs : os_mkdir ?p ?m _ = (Return _, _) |- _ =>
             lazymatch goal with
             | _ : stat _ p = Some (Dir (N.ldiff m umask)) |- _ => fail
             | _ => let Hne := fresh "Hnamed" in
                    let Hq := fresh "Hmade" in
                    destruct (os_mkdir_returned _ _ _ _ _ Hs) as (Hne & _ & Hq);
                    carry_forward Hq;
                    apply (fun n q => proj2 (stat_Some _ _ _) (conj n q)) in Hq;
                    [|exact Hne]
             end
         end.
  split_and!;
    [done | done | apply keyring_mode_private | by repeat constructor |].
  match goal with
  | Hs : write_default_ini_config _ _ = (Return _, _) |- _ =>
      destruct (write_default_ini_config_returned _ _ _ _ Hs)
        as (text & Hopen & Heq & Htext)
  end.
  exists text. split.
  - apply stat_Some. split; [by eapply can_open_named|].
    rewrite Heq. apply lookup_insert_eq.
  - intros Hne. destruct Htext as [(content & Htemplate & ->) | [Halias _]];
      [|done].
    exists content. split.
    + apply stat_Some in Htemplate as [Htnamed Htemplate].
      apply stat_Some. split; [done|].
      carry_back Htemplate. exact Htemplate.
    + unfold template_text. by rewrite decide_False.
Qed.

(** X9. [initialize_configuration] returns only on a machine where none
    of the eight directories it makes is there yet, as a directory or as
    anything else. *)
Theorem initialize_configuration_needs_fresh_paths (fs fs' : filesystem)
    config_root r :
  initialize_configuration config_root fs = (Return r, fs') ->
  Forall (fun path => path ≠ "" /\ stat fs path = None)
    [ or_default_root config_root; DEFAULT_KEYRING_ROOT;
      DEFAULT_KNOWN_NODE_DIR; DEFAULT_KNOWN_CERTIFICATES_DIR;
      DEFAULT_KNOWN_METADATA_DIR; DEFAULT_SEED_NODE_DIR;
      DEFAULT_SEED_CERTIFICATES_DIR; DEFAULT_SEED_METADATA_DIR ].
Proof.
  intros H. tree_steps H.
  repeat match goal with
         | Hs : os_mkdir ?p _ _ = (Return _, _) |- _ =>
             lazymatch goal with
             | _ : stat fs p = None |- _ => fail
             | _ => let Hne := fresh "Hnamed" in
                    let Hq := fresh "Hfree" in
                    destruct (os_mkdir_returned _ _ _ _ _ Hs) as (Hne & Hq & _);
                    carry_back Hq;
                    apply stat_None in Hq
             end
         end.
  by repeat constructor.
Qed.

Lemma initialize_configuration_touches config_root :
  touches_only (tree_paths (or_default_root config_root))
    (initialize_configuration config_root).
Proof.
  unfold initialize_configuration.
  apply touches_only_bind; [apply os_path_isdir_touches|].
  intros [|]; [apply touches_only_raise|].
  repeat (apply touches_only_bind;
          [apply os_mkdir_touches; unfold tree_paths; cbn [map];
           rewrite !elem_of_cons; tauto | intros _]).
  apply touches_only_bind; [|intros _; apply touches_only_ret].
  apply write_default_ini_config_touches. unfold tree_paths. cbn [map].
  rewrite !elem_of_cons. tauto.
Qed.

Lemma initialize_configuration_keeps_entries config_root q :
  preserves (fun fs => is_Some (fs !! q)) (initialize_configuration config_root).
Proof.
  unfold initialize_configuration.
  apply preserves_bind; [apply os_path_isdir_keeps|].
  intros [|]; [apply preserves_raise|].
  repeat (apply preserves_bind; [apply os_mkdir_keeps_entries | intros _]).
  apply preserves_bind; [|intros _; apply preserves_ret].
  apply write_default_ini_config_keeps_entries.
Qed.

(** X10. However [initialize_configuration] ends, it has touched no file
    but the root, the seven default directories and the default ini file,
    and it has removed nothing: what was there is still there. *)
Theorem initialize_configuration_frame (fs fs' : filesystem) config_root r :
  initialize_configuration config_root fs = (r, fs') ->
  (forall q, q ∉ tree_paths (or_default_root config_root) ->
             fs' !! q = fs !! q)
  /\ (forall q, is_Some (fs !! q) -> is_Some (fs' !! q)).
Proof.
  intros Hrun. split.
  - intros q Hq. by eapply initialize_configuration_touches.
  - intros q Hq. by eapply initialize_configuration_keeps_entries.
Qed.

(** X11. A failed [initialize_configuration] takes nothing back.  When it
    raises the configuration error the root was a directory and nothing was
    done.  When it raises anything else the root was no directory, and
    either the exception is that of making the root and nothing was done,
    or the root was made and is still a directory at the end. *)
Theorem initialize_configuration_failures (fs fs' : filesystem) config_root e :
  initialize_configuration config_root fs = (Raise e, fs') ->
  (is_dir fs (or_default_root config_root) = true
   /\ fs' = fs
   /\ e = NucypherConfigurationError
            ("There are existing nucypher configuration files at "
             +:+ py_str_opt config_root))
  \/ (is_dir fs (or_default_root config_root) = false
      /\ (forall msg, e ≠ NucypherConfigurationError msg)
      /\ ((os_mkdir (or_default_root config_root) (octal 7 5 5) fs
           = (Raise e, fs)
           /\ fs' = fs)
          \/ (exists fs0,
                os_mkdir (or_default_root config_root) (octal 7 5 5) fs
                = (Return tt, fs0)
                /\ stat fs (or_default_root config_root) = None
                /\ is_dir fs' (or_default_root config_root) = true))).
Proof.
  intros Hrun.
  destruct (is_dir fs (or_default_root config_root)) eqn:Hdir.
  - rewrite (initialize_configuration_existing fs config_root Hdir) in Hrun.
    injection Hrun as <- <-. by left.
  - right. split; [done|].
    assert (forall msg, e ≠ NucypherConfigurationError msg) as Hkind.
    { intros msg ->. revert Hrun. unfold initialize_configuration.
      erewrite iobind_Return; [|reflexivity]. rewrite Hdir.
      intros Hrun.
      do 8 (apply iobind_inv in Hrun
              as [(? & ? & _ & Hrun) | (? & Hstep & [= <-])];
            [|by apply os_mkdir_raises in Hstep as [[] _]]).
      apply iobind_inv in Hrun
        as [(? & ? & _ & Hrun) | (? & Hstep & [= <-])]; [discriminate Hrun|].
      by eapply write_default_ini_config_raises in Hstep. }
    split; [exact Hkind|].
    destruct (os_mkdir (or_default_root config_root) (octal 7 5 5) fs)
      as [[[]|e0] fs0] eqn:Hmk.
    + right. exists fs0. split_and!; [done| |].
      * apply stat_None. by apply os_mkdir_returned in Hmk as (_ & ? & _).
      * by eapply initialize_configuration_keeps_root.
    + left. revert Hrun. unfold initialize_configuration.
      erewrite iobind_Return; [|reflexivity]. rewrite Hdir.
      erewrite iobind_Raise; [|exact Hmk]. intros [= <- <-].
      apply os_mkdir_inv in Hmk as [([=] & _) | (? & _ & _ & ->)]. done.
Qed.

(** X12. A regular file where the root should be is not seen by the
    "existing configuration" test: [initialize_configuration] fails with
    the [FileExistsError] of [mkdir] and changes nothing, while
    [check_config_tree] accepts the same path. *)
Theorem initialize_configuration_root_is_file (fs : filesystem)
    config_root content :
  stat fs (or_default_root config_root) = Some (File content) ->
  initialize_configuration config_root fs
  = (Raise (FileExistsError (or_default_root config_root)), fs)
  /\ check_config_tree config_root fs = (Return true, fs).
Proof.
  intros Hfile. split.
  - unfold initialize_configuration.
    erewrite iobind_Return; [|reflexivity].
    unfold is_dir. rewrite Hfile.
    apply iobind_Raise. unfold os_mkdir.
    pose proof (proj1 (stat_Some _ _ _) Hfile) as [Hnamed _].
    rewrite bool_decide_eq_false_2 by done.
    erewrite iobind_Return; [|reflexivity].
    rewrite Hfile. by rewrite bool_decide_eq_true_2 by eauto.
  - apply check_config_tree_spec. by rewrite Hfile.
Qed.

(** X13. After [initialize_configuration] has returned,
    [check_config_tree] on the value it returned, which is the argument it
    was given, returns [True]. *)
Theorem initialize_then_check (fs fs' : filesystem) config_root r :
  initialize_configuration config_root fs = (Return r, fs') ->
  r = config_root /\ check_config_tree r fs' = (Return true, fs').
Proof.
  intros Hrun.
  pose proof (initialize_configuration_returns_argument _ _ _ _ Hrun) as ->.
  split; [reflexivity|].
  destruct (initialize_configuration_made_root _ _ _ _ Hrun) as [fs0 Hmk].
  pose proof (initialize_configuration_keeps_root _ _ _ _ _ Hmk Hrun) as Hdir.
  apply check_config_tree_spec. unfold is_dir in Hdir.
  destruct (stat fs' (or_default_root config_root)); [eauto | discriminate].
Qed.

(** X14. An argument that is [None] or the empty string is treated as the
    default root: the run leaves the same file system as a run on the
    default root given by name, and ends the same way. *)
Theorem initialize_configuration_falsy_root (fs : filesystem) config_root :
  truthy config_root = false ->
  same_effect (initialize_configuration config_root fs)
    (initialize_configuration (Some DEFAULT_CONFIG_ROOT) fs).
Proof.
  intros Hfalsy. unfold initialize_configuration.
  rewrite (or_default_root_falsy config_root Hfalsy).
  assert (or_default_root (Some DEFAULT_CONFIG_ROOT) = DEFAULT_CONFIG_ROOT)
    as -> by (unfold or_default_root, truthy;
              by destruct DEFAULT_CONFIG_ROOT).
  apply same_effect_bind. intros [|] fs0; [by split|].
  repeat (apply same_effect_bind; intros _ ?).
  by split.
Qed.

End TreeTheorems.

Lemma sample_run :
  initialize_configuration (P := sample_process) (K := sample_constants)
    None sample_fs
  = (Return None, sample_fs_initialized).
Proof. vm_compute. reflexivity. Qed.

(** The same run in a process whose umask is [0o077]. *)
Lemma private_run :
  initialize_configuration (P := private_process) (K := sample_constants)
    None sample_fs
  = (Return None,
     snd (initialize_configuration (P := private_process)
            (K := sample_constants) None sample_fs)).
Proof. vm_compute. reflexivity. Qed.

Lemma initialize_configuration_tree_witness :
  stat (P := private_process)
    (snd (initialize_configuration (P := private_process)
            (K := sample_constants) None sample_fs))
    "/home/u/.local/share/nucypher/keyring"
  = Some (Dir (octal 7 0 0))
  /\ stat (P := private_process)
       (snd (initialize_configuration (P := private_process)
               (K := sample_constants) None sample_fs))
       "/home/u/.local/share/nucypher"
     = Some (Dir (octal 7 0 0)).
Proof.
  destruct (initialize_configuration_tree (P := private_process)
              (K := sample_constants) sample_fs _ None None private_run)
    as (Hroot & Hkeyring & _).
  split; [exact Hkeyring | exact Hroot].
Defined.

Lemma initialize_configuration_needs_fresh_paths_witness :
  Forall (fun path => path ≠ "" /\ stat (P := sample_process) sample_fs path = None)
    [ "/home/u/.local/share/nucypher";
      "/home/u/.local/share/nucypher/keyring";
      "/home/u/.local/share/nucypher/known_nodes";
      "/home/u/.local/share/nucypher/known_nodes/certificates";
      "/home/u/.local/share/nucypher/known_nodes/metadata";
      "/home/u/.local/share/nucypher/seed_nodes";
      "/home/u/.local/share/nucypher/seed_nodes/certificates";
      "/home/u/.local/share/nucypher/seed_nodes/metadata" ].
Proof.
  exact (initialize_configuration_needs_fresh_paths (P := sample_process)
           (K := sample_constants)
           sample_fs sample_fs_initialized None None sample_run).
Defined.

Lemma initialize_configuration_frame_witness :
  sample_fs_initialized !! "/opt/nucypher/cli/.nucypher.ini"
  = sample_fs !! "/opt/nucypher/cli/.nucypher.ini".
Proof.
  apply (initialize_configuration_frame (P := sample_process)
           (K := sample_constants)
           sample_fs sample_fs_initialized None (Return None) sample_run).
  unfold tree_paths. simpl. rewrite !not_elem_of_cons.
  split_and!; try discriminate. apply not_elem_of_nil.
Defined.

Lemma initialize_configuration_failures_witness :
  is_dir (P := sample_process)
    (snd (initialize_configuration (P := sample_process)
            (K := sample_constants)
            (Some "/home/u/.local/share/other") sample_fs))
    "/home/u/.local/share/other" = true.
Proof.
  destruct (initialize_configuration_failures (P := sample_process)
              (K := sample_constants)
              sample_fs
              (snd (initialize_configuration (P := sample_process)
                      (K := sample_constants)
                      (Some "/home/u/.local/share/other") sample_fs))
              (Some "/home/u/.local/share/other")
              (FileNotFoundError "/home/u/.local/share/nucypher/keyring"))
    as [(Hdir & _) | (_ & _ & [[Hsame _] | (fs0 & _ & _ & Hmade)])].
  - vm_compute. reflexivity.
  - vm_compute in Hdir. discriminate.
  - vm_compute in Hsame. discriminate.
  - exact Hmade.
Defined.

Lemma initialize_configuration_root_is_file_witness :
  initialize_configuration (P := sample_process) (K := sample_constants)
    None sample_fs_blocked
  = (Raise (FileExistsError "/home/u/.local/share/nucypher"), sample_fs_blocked)
  /\ check_config_tree (P := sample_process) (K := sample_constants)
       None sample_fs_blocked
     = (Return true, sample_fs_blocked).
Proof.
  apply (initialize_configuration_root_is_file (P := sample_process)
           (K := sample_constants) sample_fs_blocked None "").
  vm_compute. reflexivity.
Defined.

Lemma initialize_then_check_witness :
  check_config_tree (P := sample_process) (K := sample_constants)
    None sample_fs_initialized
  = (Return true, sample_fs_initialized).
Proof.
  apply (initialize_then_check (P := sample_process) (K := sample_constants)
           sample_fs sample_fs_initialized None None sample_run).
Defined.

Lemma initialize_configuration_falsy_root_witness :
  same_effect
    (initialize_configuration (P := sample_process) (K := sample_constants)
       (Some "") sample_fs)
    (initialize_configuration (P := sample_process) (K := sample_constants)
       (Some "/home/u/.local/share/nucypher") sample_fs).
Proof.
  apply (initialize_configuration_falsy_root (P := sample_process)
           (K := sample_constants) sample_fs (Some "")).
  reflexivity.
Defined.

(** ** The rule loops *)

(** X15. The rules of [validate_passphrase] are tried in order: [True] is
    returned exactly when every rule holds, and otherwise the message of the
    first rule that fails is the one raised, whatever comes after it. *)
Theorem check_rules_first_failure (rules : list (bool * string)) :
  (check_rules rules = Return true <-> Forall (fun rule => fst rule = true) rules)
  /\ (forall before failure_message after,
        rules = (before ++ (false, failure_message) :: after)%list ->
        Forall (fun rule => fst rule = true) before ->
        check_rules rules = Raise (NucypherConfigurationError failure_message)).
Proof.
  split.
  - induction rules as [|[rule msg] rest IH]; simpl.
    + split; [constructor | reflexivity].
    + destruct rule; simpl.
      * rewrite IH. split; [by constructor | by inversion 1].
      * split; [discriminate | by inversion 1].
  - intros before failure_message after -> Hbefore.
    induction Hbefore as [|[rule msg] rest Hrule _ IH]; simpl; [reflexivity|].
    simpl in Hrule. by rewrite Hrule.
Qed.

(** X16. The runtime guard lets every user through where [os.name] is
    ['nt'] and every user but user 0 elsewhere; for user 0 it raises a plain
    [Exception], never the configuration error, and it never returns
    [False]. *)
Theorem check_config_runtime_guard (os_name : string) (getuid : nat) :
  (os_name = "nt" -> check_config_runtime os_name getuid = Return true)
  /\ (os_name ≠ "nt" -> getuid ≠ 0 ->
      check_config_runtime os_name getuid = Return true)
  /\ (os_name ≠ "nt" -> getuid = 0 ->
      check_config_runtime os_name getuid
      = Raise (Exception "Cannot run as root user."))
  /\ (forall msg,
        check_config_runtime os_name getuid
        ≠ Raise (NucypherConfigurationError msg))
  /\ check_config_runtime os_name getuid ≠ Return false.
Proof.
  rewrite check_config_runtime_spec.
  destruct (bool_decide_reflect (os_name = "nt")) as [Hnt|Hnt];
    destruct (bool_decide_reflect (getuid = 0)) as [Huid|Huid]; simpl;
    split_and!; try done.
Qed.

Lemma check_config_runtime_guard_witness :
  check_config_runtime "posix" 0 = Raise (Exception "Cannot run as root user.")
  /\ check_config_runtime "nt" 0 = Return true
  /\ check_config_runtime "posix" 1000 = Return true.
Proof.
  split_and!.
  - apply (proj1 (proj2 (proj2 (check_config_runtime_guard "posix" 0))));
      [discriminate | reflexivity].
  - apply (proj1 (check_config_runtime_guard "nt" 0)). reflexivity.
  - apply (proj1 (proj2 (check_config_runtime_guard "posix" 1000)));
      discriminate.
Defined.

Lemma initialize_configuration_returns_given_root_witness :
  Some "/home/u/.local/share/alt"
  = Some (or_default_root (K := sample_constants)
            (Some "/home/u/.local/share/alt")).
Proof.
  apply (initialize_configuration_returns_given_root (P := sample_process)
           (K := sample_constants)
           sample_fs_configured
           (snd (initialize_configuration (P := sample_process)
                   (K := sample_constants)
                   (Some "/home/u/.local/share/alt") sample_fs_configured))).
  - reflexivity.
  - vm_compute. reflexivity.
Defined.
